(** * Fingerprint enrollment / verification controller (src/app/page.tsx)

    A shallow embedding of the [FingerprintSystem] component's handlers:
    the React state is an explicit [State] record threaded through each
    handler, the browser's [localStorage] is a finite map carried in that
    record, and everything the handlers obtain from outside (the clock, the
    two SecuGen endpoints, whether a storage write is refused) is read from
    an [Env] record.  Each handler is modelled as run to completion. *)

From stdpp Require Import gmap strings list fin_maps pretty.

(** ** JSON values and texts *)

(** What [JSON.parse] returns.  Numbers are integers: every number the
    handlers create or compare ([Date.now()], scores, error codes) is one.
    The property list of an object has no repeated key. *)
#[local] Set Warnings "-register-all".
Inductive JSON : Type :=
| JNull
| JBool (b : bool)
| JNum (n : Z)
| JStr (s : string)
| JArr (items : list JSON)
| JObj (props : list (string * JSON)).

(** The content of a storage slot or of an uploaded file, up to JSON
    well-formedness: [Json v] is the text that [JSON.stringify] prints for
    [v] (and any text that parses to [v]); [Malformed raw] is a text on which
    [JSON.parse] throws a SyntaxError. *)
Inductive Text : Type :=
| Json (v : JSON)
| Malformed (raw : string).

Definition JSON_stringify (v : JSON) : Text := Json v.

(** [None] stands for the SyntaxError. *)
Definition JSON_parse (t : Text) : option JSON :=
  match t with
  | Json v => Some v
  | Malformed _ => None
  end.

(** Truthiness of a string: only the empty string is falsy. *)
Definition truthy_string (s : string) : bool :=
  match s with
  | EmptyString => false
  | String _ _ => true
  end.

(** Truthiness of a text returned by [getItem]: a JSON text is never empty. *)
Definition truthy_text (t : Text) : bool :=
  match t with
  | Json _ => true
  | Malformed raw => truthy_string raw
  end.

(** Truthiness of a parsed value. *)
Definition truthy (v : JSON) : bool :=
  match v with
  | JNull => false
  | JBool b => b
  | JNum n => negb (n =? 0)%Z
  | JStr s => truthy_string s
  | JArr _ => true
  | JObj _ => true
  end.

Definition Array_isArray (v : JSON) : bool :=
  match v with
  | JArr _ => true
  | _ => false
  end.

Fixpoint assoc (k : string) (props : list (string * JSON)) : option JSON :=
  match props with
  | [] => None
  | (k', v) :: rest => if String.eqb k k' then Some v else assoc k rest
  end.

(** Property access [v.k] for the two keys the handlers read ("users",
    "lastCaptured") on a value that is not [null]: [None] is [undefined].
    Access on [null] throws and is handled where it occurs. *)
Definition field (k : string) (v : JSON) : option JSON :=
  match v with
  | JObj props => assoc k props
  | _ => None
  end.

(** ** Records *)

Record User : Type := {
  user_id : Z;
  user_name : string;
  user_template : string;
  user_enrollDate : string
}.

Record CapturedData : Type := {
  cap_template : string;
  cap_image : string;
  cap_quality : Z;
  cap_nfiq : Z
}.

Definition User_toJSON (u : User) : JSON :=
  JObj [("id", JNum (user_id u)); ("name", JStr (user_name u));
        ("template", JStr (user_template u));
        ("enrollDate", JStr (user_enrollDate u))].

Definition CapturedData_toJSON (c : CapturedData) : JSON :=
  JObj [("template", JStr (cap_template c)); ("image", JStr (cap_image c));
        ("quality", JNum (cap_quality c)); ("nfiq", JNum (cap_nfiq c))].

(** The casts [any -> User] and [any -> CapturedData] are unchecked in the
    source.  The state below is typed, so a parsed value enters it only when
    it has the declared fields with the declared types; on any other value
    the cast leaves the typed state space and these functions give [None]. *)
Definition User_ofJSON (v : JSON) : option User :=
  match field "id" v, field "name" v, field "template" v,
        field "enrollDate" v with
  | Some (JNum i), Some (JStr n), Some (JStr t), Some (JStr d) =>
      Some {| user_id := i; user_name := n; user_template := t;
              user_enrollDate := d |}
  | _, _, _, _ => None
  end.

Definition CapturedData_ofJSON (v : JSON) : option CapturedData :=
  match field "template" v, field "image" v, field "quality" v,
        field "nfiq" v with
  | Some (JStr t), Some (JStr i), Some (JNum q), Some (JNum n) =>
      Some {| cap_template := t; cap_image := i; cap_quality := q;
              cap_nfiq := n |}
  | _, _, _, _ => None
  end.

Definition users_toJSON (us : list User) : JSON := JArr (map User_toJSON us).

Definition users_ofJSON (items : list JSON) : option (list User) :=
  mapM User_ofJSON items.

(** ** String builtins *)

(** Strings are the UTF-8 encodings of the JavaScript strings, one [ascii]
    per byte.  [String.prototype.trim] strips the WhiteSpace and
    LineTerminator code points at both ends:
      U+0009..U+000D and U+0020        one byte:    09..0D, 20
      U+00A0                           two bytes:   C2 A0
      U+1680                           three bytes: E1 9A 80
      U+2000..U+200A                                E2 80 80 .. E2 80 8A
      U+2028, U+2029, U+202F                        E2 80 A8, E2 80 A9, E2 80 AF
      U+205F                                        E2 81 9F
      U+3000                                        E3 80 80
      U+FEFF                                        EF BB BF
    In a UTF-8 text a lead byte begins a character wherever it occurs, so
    these byte sequences at the start, or at the end, of the text are
    exactly those characters. *)
Definition is_space (c : Ascii.ascii) : bool :=
  let n := Ascii.nat_of_ascii c in
  ((9 <=? n) && (n <=? 13)) || (n =? 32).

Definition is_space2 (c1 c2 : Ascii.ascii) : bool :=
  (Ascii.nat_of_ascii c1 =? 194) && (Ascii.nat_of_ascii c2 =? 160).

Definition is_space3 (c1 c2 c3 : Ascii.ascii) : bool :=
  let n1 := Ascii.nat_of_ascii c1 in
  let n2 := Ascii.nat_of_ascii c2 in
  let n3 := Ascii.nat_of_ascii c3 in
  ((n1 =? 225) && (n2 =? 154) && (n3 =? 128))
  || ((n1 =? 226) && (n2 =? 128)
      && (((128 <=? n3) && (n3 <=? 138))
          || (n3 =? 168) || (n3 =? 169) || (n3 =? 175)))
  || ((n1 =? 226) && (n2 =? 129) && (n3 =? 159))
  || ((n1 =? 227) && (n2 =? 128) && (n3 =? 128))
  || ((n1 =? 239) && (n2 =? 187) && (n3 =? 191)).

(** Strip the white-space characters at the front of [s].  With [back] the
    text is read backwards (it is the reversal of the text whose end is
    being stripped), so the bytes of a character arrive last byte first. *)
Fixpoint strip (back : bool) (s : string) : string :=
  match s with
  | EmptyString => EmptyString
  | String c1 rest1 =>
      if is_space c1 then strip back rest1
      else
        match rest1 with
        | EmptyString => s
        | String c2 rest2 =>
            if (if back then is_space2 c2 c1 else is_space2 c1 c2)
            then strip back rest2
            else
              match rest2 with
              | EmptyString => s
              | String c3 rest3 =>
                  if (if back then is_space3 c3 c2 c1
                      else is_space3 c1 c2 c3)
                  then strip back rest3
                  else s
              end
        end
  end.

Definition trimStart (s : string) : string := strip false s.

Definition trimEnd (s : string) : string :=
  String.rev (strip true (String.rev s)).

Definition trim (s : string) : string := trimEnd (trimStart s).

(** ** The outside world *)

(** Result of [await fetch(...)] followed by [await response.json()]:
    the request is rejected with an error message, or a response with an
    HTTP status arrives whose body either fails to decode (error message)
    or decodes to a reply. *)
Inductive Fetched (A : Type) : Type :=
| NetworkError (msg : string)
| Response (status : Z) (body : string + A).
Arguments NetworkError {A} msg.
Arguments Response {A} status body.

(** Reply of the capture endpoint SGIFPCapture. *)
Record CaptureReply : Type := {
  cr_ErrorCode : Z;
  cr_TemplateBase64 : string;
  cr_BMPBase64 : string;
  cr_ImageQuality : Z;
  cr_NFIQ : Z
}.

(** Reply of the comparison endpoint SGIMatchScore. *)
Record MatchReply : Type := {
  ErrorCode : Z;
  MatchingScore : Z
}.

Record Env : Type := {
  (** [Date.now()] *)
  Date_now : Z;
  (** [new Date().toLocaleString('id-ID')] *)
  Date_toLocaleString : string;
  (** [new Date().toISOString()] *)
  Date_toISOString : string;
  (** the answer to the capture request *)
  SGIFPCapture : Fetched CaptureReply;
  (** the answer to the [i]-th comparison request of a scan, sent with
      [Template1] and [Template2] *)
  SGIMatchScore : nat -> string -> string -> Fetched MatchReply;
  (** whether [localStorage.setItem key value] throws (quota exceeded,
      storage disabled) given the current content *)
  setItem_throws : gmap string Text -> string -> Text -> bool
}.

(** [response.ok] *)
Definition response_ok (status : Z) : bool :=
  ((200 <=? status) && (status <=? 299))%Z.

(** ** Component state *)

Inductive StorageStatus : Type := idle | saving | loading | error.

Record State : Type := {
  users : list User;
  name : string;
  message : string;
  isCapturing : bool;
  lastCaptured : option CapturedData;
  storageStatus : StorageStatus;
  localStorage : gmap string Text
}.

Definition setUsers (us : list User) (st : State) : State :=
  {| users := us; name := name st; message := message st;
     isCapturing := isCapturing st; lastCaptured := lastCaptured st;
     storageStatus := storageStatus st; localStorage := localStorage st |}.

Definition setName (n : string) (st : State) : State :=
  {| users := users st; name := n; message := message st;
     isCapturing := isCapturing st; lastCaptured := lastCaptured st;
     storageStatus := storageStatus st; localStorage := localStorage st |}.

Definition setMessage (m : string) (st : State) : State :=
  {| users := users st; name := name st; message := m;
     isCapturing := isCapturing st; lastCaptured := lastCaptured st;
     storageStatus := storageStatus st; localStorage := localStorage st |}.

Definition setIsCapturing (b : bool) (st : State) : State :=
  {| users := users st; name := name st; message := message st;
     isCapturing := b; lastCaptured := lastCaptured st;
     storageStatus := storageStatus st; localStorage := localStorage st |}.

Definition setLastCaptured (c : option CapturedData) (st : State) : State :=
  {| users := users st; name := name st; message := message st;
     isCapturing := isCapturing st; lastCaptured := c;
     storageStatus := storageStatus st; localStorage := localStorage st |}.

Definition setStorageStatus (s : StorageStatus) (st : State) : State :=
  {| users := users st; name := name st; message := message st;
     isCapturing := isCapturing st; lastCaptured := lastCaptured st;
     storageStatus := s; localStorage := localStorage st |}.

Definition setLocalStorage (ls : gmap string Text) (st : State) : State :=
  {| users := users st; name := name st; message := message st;
     isCapturing := isCapturing st; lastCaptured := lastCaptured st;
     storageStatus := storageStatus st; localStorage := ls |}.

(** [localStorage.setItem]: [None] when the write throws, in which case the
    store is left as it was. *)
Definition setItem (E : Env) (key : string) (value : Text)
    (ls : gmap string Text) : option (gmap string Text) :=
  if setItem_throws E ls key value then None else Some (<[key := value]> ls).

(** ** saveUsersToStorage and the effect on [users] *)

Definition saveUsersToStorage (E : Env) (st : State) : State :=
  let st := setStorageStatus saving st in
  match setItem E "fingerprintUsers" (JSON_stringify (users_toJSON (users st)))
          (localStorage st) with
  | Some ls => setStorageStatus idle (setLocalStorage ls st)
  | None =>
      setStorageStatus error
        (setMessage
           "Gagal menyimpan data ke penyimpanan lokal. Ruang penyimpanan mungkin penuh."
           st)
  end.

(** The [useEffect] with dependency [users], run after a render in which
    [users] changed. *)
Definition usersEffect (E : Env) (st : State) : State :=
  if (0 <? length (users st))
     || match storageStatus st with idle => true | _ => false end
  then saveUsersToStorage E st
  else st.

(** ** captureFingerprint *)

Definition getErrorDescription (code : Z) : string :=
  match code with
  | 51 => "System file load failure"
  | 52 => "Sensor chip initialization failed"
  | 53 => "Device not found"
  | 54 => "Fingerprint image capture timeout"
  | 55 => "No device available"
  | 56 => "Driver load failed"
  | 57 => "Wrong Image"
  | 58 => "Lack of bandwidth"
  | 59 => "Device Busy"
  | 60 => "Cannot get serial number"
  | 61 => "Unsupported device"
  | 63 => "SgiBioSrv tidak berjalan"
  | _ => "Unknown error"
  end%Z.

(** The request of [captureFingerprint] up to the decoded reply; [inl] is
    the message of the error thrown inside the [try]. *)
Definition capture_request (E : Env) : string + CaptureReply :=
  match SGIFPCapture E with
  | NetworkError msg => inl msg
  | Response status body =>
      if response_ok status then body else inl ("HTTP " +:+ pretty status)
  end.

Definition captureFingerprint (E : Env) (st : State) : State * option string :=
  let st := setMessage "Menangkap sidik jari..." (setIsCapturing true st) in
  let '(st, result) :=
    match capture_request E with
    | inr data =>
        if (cr_ErrorCode data =? 0)%Z then
          let capturedData :=
            {| cap_template := cr_TemplateBase64 data;
               cap_image := cr_BMPBase64 data;
               cap_quality := cr_ImageQuality data;
               cap_nfiq := cr_NFIQ data |} in
          let st := setLastCaptured (Some capturedData) st in
          let st :=
            match setItem E "lastCaptured"
                    (JSON_stringify (CapturedData_toJSON capturedData))
                    (localStorage st) with
            | Some ls => setLocalStorage ls st
            | None => st
            end in
          (setMessage
             ("Sidik jari berhasil ditangkap! Kualitas: "
                +:+ pretty (cr_ImageQuality data) +:+ ", NFIQ: "
                +:+ pretty (cr_NFIQ data)) st,
           Some (cr_TemplateBase64 data))
        else
          (setMessage
             ("Error: " +:+ pretty (cr_ErrorCode data) +:+ " - "
                +:+ getErrorDescription (cr_ErrorCode data)) st,
           None)
    | inl err =>
        (setMessage
           ("Error koneksi: " +:+ err
              +:+ ". Pastikan SGIBIOSRV berjalan di port 8443") st,
         None)
    end in
  (setIsCapturing false st, result).

(** ** enrollUser *)

Definition enrollUser (E : Env) (st : State) : State :=
  if negb (truthy_string (trim (name st))) then
    setMessage "Nama harus diisi!" st
  else
    let '(st1, template) := captureFingerprint E st in
    match template with
    | Some template =>
        if truthy_string template then
          let newUser :=
            {| user_id := Date_now E;
               user_name := trim (name st);
               user_template := template;
               user_enrollDate := Date_toLocaleString E |} in
          let updatedUsers := users st ++ [newUser] in
          let st2 := setUsers updatedUsers st1 in
          let st3 :=
            match setItem E "fingerprintUsers"
                    (JSON_stringify (users_toJSON updatedUsers))
                    (localStorage st2) with
            | Some ls =>
                setMessage (name st +:+ " berhasil didaftarkan dan disimpan!")
                  (setLocalStorage ls st2)
            | None =>
                setMessage
                  (name st
                     +:+ " berhasil didaftarkan, tetapi gagal menyimpan ke penyimpanan lokal")
                  st2
            end in
          setName "" st3
        else st1
    | None => st1
    end.

(** ** deleteUser *)

Definition deleteUser (E : Env) (id : Z) (st : State) : State :=
  let updatedUsers := filter (fun u => user_id u <> id) (users st) in
  let st1 := setUsers updatedUsers st in
  match setItem E "fingerprintUsers"
          (JSON_stringify (users_toJSON updatedUsers)) (localStorage st1) with
  | Some ls =>
      setMessage "User berhasil dihapus dari penyimpanan lokal"
        (setLocalStorage ls st1)
  | None =>
      setMessage
        "User berhasil dihapus, tetapi gagal memperbarui penyimpanan lokal" st1
  end.

(** ** verifyFingerprint *)

(** One comparison request up to the decoded reply; [inl] is the message of
    the error thrown inside the loop's [try] (no [response.ok] test here). *)
Definition match_request (E : Env) (i : nat) (Template1 Template2 : string)
    : string + MatchReply :=
  match SGIMatchScore E i Template1 Template2 with
  | NetworkError msg => inl msg
  | Response _ body => body
  end.

Inductive ScanResult : Type :=
| Aborted (err : string)
| Completed (bestMatch : option User) (bestScore : Z).

(** The [for (const user of users)] loop, entered at its [i]-th iteration
    with the current [bestMatch] and [bestScore]. *)
Fixpoint scan (E : Env) (template : string) (i : nat) (us : list User)
    (bestMatch : option User) (bestScore : Z) : ScanResult :=
  match us with
  | [] => Completed bestMatch bestScore
  | user :: rest =>
      match match_request E i template (user_template user) with
      | inr data =>
          if ((ErrorCode data =? 0) && (bestScore <? MatchingScore data))%Z
          then scan E template (S i) rest (Some user) (MatchingScore data)
          else scan E template (S i) rest bestMatch bestScore
      | inl err => Aborted err
      end
  end.

(** The test [bestScore > 100 && bestMatch] after the loop. *)
Inductive Verdict : Type :=
| Accepted (bestMatch : User) (bestScore : Z)
| Rejected (bestScore : Z).

Definition verdict (bestMatch : option User) (bestScore : Z) : Verdict :=
  if (100 <? bestScore)%Z then
    match bestMatch with
    | Some user => Accepted user bestScore
    | None => Rejected bestScore
    end
  else Rejected bestScore.

(** The body that both branches run inside their [try]: read the stored
    log, push the entry, keep the last 50, write back.  A SyntaxError of
    [JSON.parse], the TypeError of [push] on a value that is no array and a
    throwing [setItem] all end in the [catch], which only logs to the
    console. *)
Definition saveVerificationLog (E : Env) (verificationLog : JSON)
    (ls : gmap string Text) : gmap string Text :=
  let stored :=
    match ls !! "verificationLogs" with
    | Some t => if truthy_text t then t else Json (JArr [])
    | None => Json (JArr [])
    end in
  match JSON_parse stored with
  | Some (JArr existingLogs) =>
      let pushed := existingLogs ++ [verificationLog] in
      let kept :=
        if 50 <? length pushed then drop (length pushed - 50) pushed
        else pushed in
      match setItem E "verificationLogs" (JSON_stringify (JArr kept)) ls with
      | Some ls' => ls'
      | None => ls
      end
  | _ => ls
  end.

Definition successLog (E : Env) (bestMatch : User) (bestScore : Z) : JSON :=
  JObj [("timestamp", JStr (Date_toISOString E));
        ("userName", JStr (user_name bestMatch));
        ("score", JNum bestScore);
        ("success", JBool true)].

Definition failureLog (E : Env) (bestScore : Z) : JSON :=
  JObj [("timestamp", JStr (Date_toISOString E));
        ("score", JNum bestScore);
        ("success", JBool false)].

(** What follows the loop: the [catch] of an aborted scan, or the two
    branches of the test on a scan that ran through.  [st2] is the state
    when the loop was entered. *)
Definition after_scan (E : Env) (st2 : State) (result : ScanResult) : State :=
  match result with
  | Aborted err => setMessage ("Error matching: " +:+ err) st2
  | Completed bestMatch bestScore =>
      match verdict bestMatch bestScore with
      | Accepted bestMatch bestScore =>
          let ls :=
            saveVerificationLog E (successLog E bestMatch bestScore)
              (localStorage st2) in
          setMessage
            ("✓ Verifikasi Berhasil! " +:+ user_name bestMatch
               +:+ " (Score: " +:+ pretty bestScore +:+ "/199)")
            (setLocalStorage ls st2)
      | Rejected bestScore =>
          let ls :=
            saveVerificationLog E (failureLog E bestScore)
              (localStorage st2) in
          setMessage
            ("✗ Sidik jari tidak cocok. Score tertinggi: "
               +:+ pretty bestScore +:+ "/199")
            (setLocalStorage ls st2)
      end
  end.

Definition verifyFingerprint (E : Env) (st : State) : State :=
  if length (users st) =? 0 then setMessage "Belum ada user terdaftar!" st
  else
    let '(st1, template) := captureFingerprint E st in
    match template with
    | None => st1
    | Some template =>
        if negb (truthy_string template) then st1
        else
          let st2 := setMessage "Memverifikasi..." st1 in
          after_scan E st2 (scan E template 0 (users st) None 0)
    end.

(** ** exportData and importData *)

(** The text handed to the browser as the download.  Nothing in the [try]
    throws on a typed state, so the [catch] is not reached. *)
Definition exportData (E : Env) (st : State) : State * Text :=
  let data :=
    JObj [("users", users_toJSON (users st));
          ("lastCaptured",
           match lastCaptured st with
           | Some c => CapturedData_toJSON c
           | None => JNull
           end);
          ("exportDate", JStr (Date_toISOString E))] in
  let dataStr := JSON_stringify data in
  (setMessage "Data berhasil diekspor" st, dataStr).

Definition import_failed (st : State) : State :=
  setMessage "Gagal mengimpor data. Format file tidak valid." st.

(** [file] is the content of the chosen file, [None] when no file was
    chosen.  [reader.onload] is run at once.  An array is truthy, so the
    test [data.users && Array.isArray(data.users)] holds exactly when
    [data.users] is an array (lemma [users_test_array] below).  The result
    is [None] only where an unchecked cast leaves the typed state. *)
Definition importData (E : Env) (file : option Text) (st : State)
    : option State :=
  match file with
  | None => Some st
  | Some text =>
      match JSON_parse text with
      | None => Some (import_failed st)
      | Some JNull => Some (import_failed st)
      | Some data =>
          match field "users" data with
          | Some (JArr items) =>
              us ← users_ofJSON items;
              let st1 := setUsers us st in
              match setItem E "fingerprintUsers" (JSON_stringify (JArr items))
                      (localStorage st1) with
              | None => Some (import_failed st1)
              | Some ls =>
                  let st2 := setLocalStorage ls st1 in
                  let imported :=
                    setMessage
                      ("Berhasil mengimpor " +:+ pretty (length items)
                         +:+ " user") in
                  match field "lastCaptured" data with
                  | Some lc =>
                      if truthy lc then
                        c ← CapturedData_ofJSON lc;
                        let st3 := setLastCaptured (Some c) st2 in
                        match setItem E "lastCaptured" (JSON_stringify lc)
                                (localStorage st3) with
                        | None => Some (import_failed st3)
                        | Some ls' => Some (imported (setLocalStorage ls' st3))
                        end
                      else Some (imported st2)
                  | None => Some (imported st2)
                  end
              end
          | _ => Some (setMessage "Format file tidak valid" st)
          end
      end
  end.

(** ** loadUsersFromStorage *)

(** Run on mount.  [setUsers(parsedUsers)] is an unchecked cast: the result
    is [None] where the stored text parses to something that is no array of
    User records, since the typed state cannot hold it. *)
Definition loadUsersFromStorage (st : State) : option State :=
  let st1 := setStorageStatus loading st in
  match localStorage st !! "fingerprintUsers" with
  | Some storedUsers =>
      if truthy_text storedUsers then
        match JSON_parse storedUsers with
        | None =>
            Some (setStorageStatus error
                    (setMessage "Gagal memuat data dari penyimpanan lokal"
                       st1))
        | Some (JArr items) =>
            us ← users_ofJSON items;
            Some (setStorageStatus idle
                    (setMessage
                       ("Berhasil memuat " +:+ pretty (length items)
                          +:+ " user dari penyimpanan lokal")
                       (setUsers us st1)))
        | Some _ => None
        end
      else Some (setStorageStatus idle st1)
  | None => Some (setStorageStatus idle st1)
  end.

(** ** clearAllData *)

(** [localStorage.removeItem]: [None] when the call throws.  Whether it
    does is given by [throws], which like [confirmed] (the answer to the
    [confirm] dialog) comes from outside. *)
Definition removeItem (throws : gmap string Text -> string -> bool)
    (key : string) (ls : gmap string Text) : option (gmap string Text) :=
  if throws ls key then None else Some (delete key ls).

Definition clear_failed (st : State) : State :=
  setMessage "Gagal menghapus data dari penyimpanan lokal" st.

Definition clearAllData (confirmed : bool)
    (throws : gmap string Text -> string -> bool) (st : State) : State :=
  if confirmed then
    match removeItem throws "fingerprintUsers" (localStorage st) with
    | None => clear_failed st
    | Some ls1 =>
        match removeItem throws "lastCaptured" ls1 with
        | None => clear_failed (setLocalStorage ls1 st)
        | Some ls2 =>
            match removeItem throws "verificationLogs" ls2 with
            | None => clear_failed (setLocalStorage ls2 st)
            | Some ls3 =>
                setMessage "Semua data berhasil dihapus dari penyimpanan lokal"
                  (setLastCaptured None (setUsers [] (setLocalStorage ls3 st)))
            end
        end
    end
  else st.

(** ** Vocabulary of the statements *)

(** What one decoded reply contributes to the running maximum: its
    [MatchingScore] when [ErrorCode] is 0, nothing (0) otherwise. *)
Definition contribution (r : MatchReply) : Z :=
  if (ErrorCode r =? 0)%Z then MatchingScore r else 0%Z.

(** The answers the endpoint holds for the requests of a scan that enters
    the loop at iteration [i] over [us], in gallery order. *)
Fixpoint requests (E : Env) (template : string) (i : nat) (us : list User)
    : list (string + MatchReply) :=
  match us with
  | [] => []
  | user :: rest =>
      match_request E i template (user_template user)
        :: requests E template (S i) rest
  end.



(** The array a reader of the audit log sees, i.e. the value of
    [JSON.parse(localStorage.getItem('verificationLogs') || '[]')] when it
    is an array. *)
Definition audit_log (ls : gmap string Text) : option (list JSON) :=
  match ls !! "verificationLogs" with
  | Some t =>
      if truthy_text t then
        match JSON_parse t with
        | Some (JArr entries) => Some entries
        | _ => None
        end
      else Some []
  | None => Some []
  end.

Definition log_bounded (ls : gmap string Text) : Prop :=
  forall entries, audit_log ls = Some entries -> length entries <= 50.

(** The record [captureFingerprint] builds from a reply. *)
Definition capturedData_of (data : CaptureReply) : CapturedData :=
  {| cap_template := cr_TemplateBase64 data; cap_image := cr_BMPBase64 data;
     cap_quality := cr_ImageQuality data; cap_nfiq := cr_NFIQ data |}.

(** * Sample data *)

Definition ani : User :=
  {| user_id := 1700000000000; user_name := "Ani"; user_template := "QUFB";
     user_enrollDate := "14/11/2023, 22.13.20" |}.
Definition budi : User :=
  {| user_id := 1700000060000; user_name := "Budi"; user_template := "QkJC";
     user_enrollDate := "14/11/2023, 22.14.20" |}.
Definition citra : User :=
  {| user_id := 1700000120000; user_name := "Citra"; user_template := "Q0ND";
     user_enrollDate := "14/11/2023, 22.15.20" |}.

(** A state with the given gallery and name field, empty storage. *)
Definition state_of (us : list User) (n : string) : State :=
  {| users := us; name := n; message := ""; isCapturing := false;
     lastCaptured := None; storageStatus := idle; localStorage := ∅ |}.

Definition gallery3 : State := state_of [ani; budi; citra] "".

(** A capture that succeeds with template "UFJPQkU=". *)
Definition good_capture : Fetched CaptureReply :=
  Response 200
    (inr {| cr_ErrorCode := 0; cr_TemplateBase64 := "UFJPQkU=";
            cr_BMPBase64 := "Qk0="; cr_ImageQuality := 92; cr_NFIQ := 1 |}).

(** The comparison endpoint answering the [i]-th request with the [i]-th
    element of [answers] (a rejected request past the end). *)
Definition answers_of (answers : list (Fetched MatchReply))
    : nat -> string -> string -> Fetched MatchReply :=
  fun i _ _ => default (NetworkError "Failed to fetch") (answers !! i).

Definition score (s : Z) : Fetched MatchReply :=
  Response 200 (inr {| ErrorCode := 0; MatchingScore := s |}).

(** An environment at clock reading [now] whose capture succeeds, whose
    comparisons are [answers] and whose storage writes throw iff [full]. *)
Definition env_of (now : Z) (answers : list (Fetched MatchReply))
    (full : bool) : Env :=
  {| Date_now := now; Date_toLocaleString := "15/11/2023, 09.00.00";
     Date_toISOString := "2023-11-15T02:00:00.000Z";
     SGIFPCapture := good_capture;
     SGIMatchScore := answers_of answers;
     setItem_throws := fun _ _ _ => full |}.

Definition quiet_env : Env := env_of 1700040000000 [] false.

(** A full log: fifty rejected attempts with scores 0 .. 49. *)
Definition fifty_entries : list JSON :=
  map (fun i => JObj [("timestamp", JStr "2023-11-14T00:00:00.000Z");
                      ("score", JNum (Z.of_nat i)); ("success", JBool false)])
    (seq 0 50).

(** An environment whose capture request is answered by [capture], with
    no comparison answers, whose storage writes throw iff [full]. *)
Definition env_capturing (capture : Fetched CaptureReply) (full : bool)
    : Env :=
  {| Date_now := 1700040000000; Date_toLocaleString := "15/11/2023, 09.00.00";
     Date_toISOString := "2023-11-15T02:00:00.000Z";
     SGIFPCapture := capture;
     SGIMatchScore := answers_of [];
     setItem_throws := fun _ _ _ => full |}.

(** The string whose UTF-8 bytes are [codes]. *)
Definition bytes (codes : list nat) : string :=
  fold_right (fun n s => String (Ascii.ascii_of_nat n) s) EmptyString codes.

(** U+00A0 NO-BREAK SPACE. *)
Definition nbsp : string := bytes [194; 160].

(** The comparison answers in which the second request gets an HTTP 500
    response whose body decodes to a valid comparison of score 150. *)
Definition answers_with_500 : list (Fetched MatchReply) :=
  [score 40;
   Response 500 (inr {| ErrorCode := 0; MatchingScore := 150 |});
   score 90].

(** Two capture records. *)
Definition capture1 : CapturedData :=
  {| cap_template := "UFJPQkU="; cap_image := "Qk0="; cap_quality := 92;
     cap_nfiq := 1 |}.
Definition capture2 : CapturedData :=
  {| cap_template := "T1RIRVI="; cap_image := "Qk1C"; cap_quality := 85;
     cap_nfiq := 2 |}.

(** A storage holding the three keys of the application. *)
Definition stored3 : gmap string Text :=
  <["fingerprintUsers" := Json (users_toJSON [ani; budi; citra])]>
    (<["lastCaptured" := Json (CapturedData_toJSON capture1)]>
       (<["verificationLogs" := Json (JArr [])]> ∅)).

(** * Properties *)

(** ** trim *)

Example trim_ascii : trim "  Dewi Sri " = "Dewi Sri".
Proof. reflexivity. Qed.

(** A name made of U+00A0 only is blank. *)
Example trim_nbsp : trim nbsp = "".
Proof. reflexivity. Qed.

(** U+FEFF and a space in front, U+3000, U+2028 and LF behind. *)
Example trim_unicode_ends :
  trim (bytes [239; 187; 191; 32] +:+ "Dewi"
          +:+ bytes [227; 128; 128; 226; 128; 168; 10]) = "Dewi".
Proof. reflexivity. Qed.

(** White space inside the text stays, and so do characters that are not
    white space: U+00E9 (C3 A9), U+0085 (C2 85), U+200B (E2 80 8B). *)
Example trim_keeps_the_rest :
  trim ("A" +:+ nbsp +:+ "B") = "A" +:+ nbsp +:+ "B"
  /\ trim (bytes [195; 169]) = bytes [195; 169]
  /\ trim (bytes [194; 133]) = bytes [194; 133]
  /\ trim (bytes [226; 128; 139]) = bytes [226; 128; 139].
Proof. repeat split; reflexivity. Qed.

(** ** The codec *)

Lemma users_test_array (u : JSON) :
  truthy u && Array_isArray u = true <-> exists items, u = JArr items.
Proof.
  split.
  - destruct u; simpl; rewrite ?andb_false_r; try discriminate. eauto.
  - intros [items ->]. reflexivity.
Qed.

Lemma User_ofJSON_toJSON (u : User) : User_ofJSON (User_toJSON u) = Some u.
Proof. destruct u. reflexivity. Qed.

Lemma CapturedData_ofJSON_toJSON (c : CapturedData) :
  CapturedData_ofJSON (CapturedData_toJSON c) = Some c.
Proof. destruct c. reflexivity. Qed.

Lemma users_ofJSON_toJSON (us : list User) :
  users_ofJSON (map User_toJSON us) = Some us.
Proof.
  unfold users_ofJSON. apply mapM_Some.
  induction us as [|u us IH]; simpl; constructor; auto using User_ofJSON_toJSON.
Qed.

(** C6. Export followed by import gives back the exported gallery, whatever
    the importing state was and whether or not the storage writes of the
    import go through: same records in the same order, same cardinality. *)
Theorem export_import_roundtrip (E E' : Env) (st st' : State) :
  exists st'',
    importData E' (Some (exportData E st).2) st' = Some st''
    /\ users st'' = users st
    /\ length (users st'') = length (users st).
Proof.
  unfold exportData, importData, users_toJSON. simpl.
  rewrite users_ofJSON_toJSON. simpl.
  destruct (setItem E' "fingerprintUsers" _ _) as [ls|].
  2: { eexists. split; [reflexivity|]. simpl. auto. }
  destruct (lastCaptured st) as [[t i q n]|]; simpl.
  - destruct (setItem E' "lastCaptured" _ _);
      (eexists; split; [reflexivity|]; simpl; auto).
  - eexists. split; [reflexivity|]. simpl. auto.
Qed.

(** C7. A parsed document whose [users] field is missing, or is there but
    is no array, is rejected with an invalid-format message; gallery, last
    capture and storage are exactly as before. *)
Theorem import_invalid_users (E : Env) (st : State) (data : JSON) :
  (forall items, field "users" data <> Some (JArr items)) ->
  exists st',
    importData E (Some (Json data)) st = Some st'
    /\ users st' = users st
    /\ lastCaptured st' = lastCaptured st
    /\ localStorage st' = localStorage st
    /\ (message st' = "Format file tidak valid"
        \/ message st' = "Gagal mengimpor data. Format file tidak valid.").
Proof.
  intros Hno. unfold importData. simpl.
  destruct data; simpl in *;
    try (eexists; split; [reflexivity|]; simpl; auto; fail).
  destruct (assoc "users" props) as [[]|] eqn:Hu;
    try (eexists; split; [reflexivity|]; simpl; auto; fail).
  exfalso. eapply Hno. reflexivity.
Qed.

Lemma import_invalid_users_witness :
  exists st',
    importData quiet_env (Some (Json (JObj [("exportDate", JStr "2024-01-01")])))
      gallery3 = Some st'
    /\ users st' = [ani; budi; citra]
    /\ lastCaptured st' = None
    /\ localStorage st' = ∅
    /\ (message st' = "Format file tidak valid"
        \/ message st' = "Gagal mengimpor data. Format file tidak valid.").
Proof.
  refine (import_invalid_users quiet_env gallery3
            (JObj [("exportDate", JStr "2024-01-01")]) _).
  intros items. simpl. discriminate.
Defined.

(** ** The scan *)

Section Scan.
Context (E : Env) (t : string).

(** Enter one iteration of the loop whose request is known by [Hr]. *)
Ltac step_with r Hr := cbn [scan]; rewrite Hr.

Lemma scan_step_update i u us bm bs r :
  match_request E i t (user_template u) = inr r ->
  ErrorCode r = 0%Z -> (bs < MatchingScore r)%Z ->
  scan E t i (u :: us) bm bs = scan E t (S i) us (Some u) (MatchingScore r).
Proof.
  intros Hr Hc Hs. step_with r Hr.
  rewrite (proj2 (Z.eqb_eq _ _) Hc), (proj2 (Z.ltb_lt _ _) Hs). reflexivity.
Qed.

Lemma scan_step_keep i u us bm bs r :
  match_request E i t (user_template u) = inr r ->
  (0 <= bs)%Z -> (contribution r <= bs)%Z ->
  scan E t i (u :: us) bm bs = scan E t (S i) us bm bs.
Proof.
  intros Hr Hbs Hs. step_with r Hr. unfold contribution in Hs.
  destruct (ErrorCode r =? 0)%Z; simpl; [|reflexivity].
  rewrite (proj2 (Z.ltb_ge _ _) Hs). reflexivity.
Qed.


Lemma scan_step_cases (r : MatchReply) (bs : Z) :
  (0 <= bs)%Z ->
  (ErrorCode r = 0%Z /\ (bs < MatchingScore r)%Z
   /\ contribution r = MatchingScore r)
  \/ (contribution r <= bs)%Z.
Proof.
  intros Hbs. unfold contribution.
  destruct (ErrorCode r =? 0)%Z eqn:Hc; [|right; lia].
  apply Z.eqb_eq in Hc.
  destruct (Z.lt_ge_cases bs (MatchingScore r)); [left|right]; auto.
Qed.

(** A scan that runs through has received a decoded reply for every record. *)
Lemma scan_completed_replies us :
  forall i bm bs bm' bs',
    scan E t i us bm bs = Completed bm' bs' ->
    exists rs, requests E t i us = map inr rs.
Proof.
  induction us as [|u us IH]; intros i bm bs bm' bs' H; simpl in *.
  - exists []. reflexivity.
  - destruct (match_request E i t (user_template u)) as [err|r]; [discriminate|].
    destruct (_ && _)%bool; apply IH in H as [rs Hrs];
      exists (r :: rs); simpl; rewrite Hrs; reflexivity.
Qed.

(** The loop as a reduction.  With decoded replies [rs] for all of [us], the
    scan entered with [(bm, bs)] runs through, and its result [(bm', bs')]
    bounds every contribution; either nothing beat [bs] and the pair is
    unchanged, or [bm'] is the record at the first position [k] whose reply
    is valid with score [bs'], every earlier contribution being strictly
    smaller. *)
Lemma scan_reduction us :
  forall rs i bm bs,
    requests E t i us = map inr rs -> (0 <= bs)%Z ->
    exists bm' bs',
      scan E t i us bm bs = Completed bm' bs'
      /\ (bs <= bs')%Z
      /\ (forall r, r ∈ rs -> (contribution r <= bs')%Z)
      /\ ((bm' = bm /\ bs' = bs)
          \/ exists k u r,
               us !! k = Some u /\ rs !! k = Some r /\ bm' = Some u
               /\ ErrorCode r = 0%Z /\ MatchingScore r = bs' /\ (bs < bs')%Z
               /\ forall j r', j < k -> rs !! j = Some r' ->
                               (contribution r' < bs')%Z).
Proof.
  induction us as [|u us IH]; intros rs i bm bs Hrs Hbs.
  - destruct rs; [|discriminate]. exists bm, bs. split; [reflexivity|].
    split; [lia|]. split; [|left; auto].
    intros r Hr. inversion Hr.
  - destruct rs as [|r rs]; [discriminate|].
    simpl in Hrs. injection Hrs as Hr Hrest.
    destruct (scan_step_cases r bs Hbs) as [(Hc & Hlt & Hcon)|Hle].
    + destruct (IH rs (S i) (Some u) (MatchingScore r) Hrest ltac:(lia))
        as (bm' & bs' & Hscan & Hmono & Hall & Hwho).
      exists bm', bs'. rewrite (scan_step_update _ _ _ _ _ _ Hr Hc Hlt).
      split; [exact Hscan|]. split; [lia|]. split.
      * intros r' Hin. apply elem_of_cons in Hin as [->|Hin]; [lia|auto].
      * right.
        destruct Hwho
          as [[-> ->]|(k & u' & r' & Hu & Hk & -> & Hc' & Hs' & Hlt' & Hfirst)].
        -- exists 0, u, r. repeat split; auto. intros j r' Hj. lia.
        -- exists (S k), u', r'. repeat split; auto; [lia|].
           intros [|j] r'' Hj Hr''; simpl in Hr''.
           ++ injection Hr'' as <-. lia.
           ++ apply (Hfirst j); [lia|exact Hr''].
    + destruct (IH rs (S i) bm bs Hrest Hbs)
        as (bm' & bs' & Hscan & Hmono & Hall & Hwho).
      exists bm', bs'. rewrite (scan_step_keep _ _ _ _ _ _ Hr Hbs Hle).
      split; [exact Hscan|]. split; [lia|]. split.
      * intros r' Hin. apply elem_of_cons in Hin as [->|Hin]; [lia|auto].
      * destruct Hwho
          as [[-> ->]|(k & u' & r' & Hu & Hk & -> & Hc' & Hs' & Hlt' & Hfirst)];
          [left; auto|right].
        exists (S k), u', r'. repeat split; auto.
        intros [|j] r'' Hj Hr''; simpl in Hr''.
        -- injection Hr'' as <-. lia.
        -- apply (Hfirst j); [lia|exact Hr''].
Qed.


(** Conversely an aborted scan met such a request after decoded replies. *)
Lemma scan_aborted_inv us :
  forall i bm bs err,
    scan E t i us bm bs = Aborted err ->
    exists rs tail, requests E t i us = map inr rs ++ inl err :: tail.
Proof.
  induction us as [|u us IH]; intros i bm bs err H; simpl in *; [discriminate|].
  destruct (match_request E i t (user_template u)) as [e|r].
  - injection H as ->. exists [], (requests E t (S i) us). reflexivity.
  - destruct (_ && _)%bool; apply IH in H as (rs & tail & Hrs);
      exists (r :: rs), tail; simpl; rewrite Hrs; reflexivity.
Qed.

End Scan.

(** ** Frame of captureFingerprint *)

Lemma setItem_other E k v ls ls' k' :
  setItem E k v ls = Some ls' -> k <> k' -> ls' !! k' = ls !! k'.
Proof.
  unfold setItem. destruct (setItem_throws E ls k v); [discriminate|].
  intros [= <-] Hne. apply lookup_insert_ne. exact Hne.
Qed.

Lemma captureFingerprint_frame E st st1 result :
  captureFingerprint E st = (st1, result) ->
  users st1 = users st /\ name st1 = name st
  /\ localStorage st1 !! "verificationLogs"
     = localStorage st !! "verificationLogs".
Proof.
  unfold captureFingerprint.
  destruct (capture_request E) as [err|data]; simpl.
  - intros [= <- <-]. simpl. auto.
  - destruct (cr_ErrorCode data =? 0)%Z; simpl.
    + destruct (setItem E "lastCaptured" _ _) as [ls|] eqn:Hset;
        intros [= <- <-]; simpl; repeat split; auto.
      eapply setItem_other; [exact Hset|discriminate].
    + intros [= <- <-]. simpl. auto.
Qed.

Lemma verifyFingerprint_scan E st st1 t :
  users st <> [] ->
  captureFingerprint E st = (st1, Some t) -> truthy_string t = true ->
  verifyFingerprint E st
  = after_scan E (setMessage "Memverifikasi..." st1)
      (scan E t 0 (users st) None 0).
Proof.
  intros Hne Hcap Ht. unfold verifyFingerprint.
  destruct (users st) as [|u us] eqn:Hus; [congruence|]. simpl.
  rewrite Hcap, Ht. reflexivity.
Qed.

(** What makes a comparison request throw: the request is rejected, or a
    response arrived, with whatever status, whose body does not decode. *)
Lemma match_request_throws E i t1 t2 err :
  match_request E i t1 t2 = inl err
  <-> SGIMatchScore E i t1 t2 = NetworkError err
      \/ exists status, SGIMatchScore E i t1 t2 = Response status (inl err).
Proof.
  unfold match_request.
  destruct (SGIMatchScore E i t1 t2) as [msg|status [e|r]]; split.
  - intros [= ->]. left. reflexivity.
  - intros [[= ->]|[status [=]]]. reflexivity.
  - intros [= ->]. right. exists status. reflexivity.
  - intros [[=]|[status' [= _ ->]]]. reflexivity.
  - discriminate.
  - intros [[=]|[status' [=]]].
Qed.



(** ** The decision *)

(** C2. A scan over a non-empty gallery that receives a decoded reply for
    every record ends in the accepted branch exactly when some reply
    contributed a score above 100, i.e. when the maximum seen exceeds 100;
    with every contribution at most 100 it ends in the rejected branch.
    The message and the audit entry written are those of that branch. *)
Theorem verify_accepted_iff_max_above_100
    (E : Env) (st st1 : State) (t : string) (rs : list MatchReply) :
  users st <> [] ->
  captureFingerprint E st = (st1, Some t) -> truthy_string t = true ->
  requests E t 0 (users st) = map inr rs ->
  exists bm bs,
    scan E t 0 (users st) None 0 = Completed bm bs
    /\ (forall r, r ∈ rs -> (contribution r <= bs)%Z)
    /\ ((exists u, verdict bm bs = Accepted u bs)
        <-> (exists r, r ∈ rs /\ (100 < contribution r)%Z))
    /\ ((forall r, r ∈ rs -> (contribution r <= 100)%Z) ->
        verdict bm bs = Rejected bs)
    /\ match verdict bm bs with
       | Accepted u s =>
           message (verifyFingerprint E st)
           = "✓ Verifikasi Berhasil! " +:+ user_name u +:+ " (Score: "
               +:+ pretty s +:+ "/199)"
           /\ localStorage (verifyFingerprint E st)
              = saveVerificationLog E (successLog E u s) (localStorage st1)
       | Rejected s =>
           message (verifyFingerprint E st)
           = "✗ Sidik jari tidak cocok. Score tertinggi: " +:+ pretty s
               +:+ "/199"
           /\ localStorage (verifyFingerprint E st)
              = saveVerificationLog E (failureLog E s) (localStorage st1)
       end.
Proof.
  intros Hne Hcap Ht Hrs.
  destruct (scan_reduction E t (users st) rs 0 None 0%Z Hrs ltac:(lia))
    as (bm & bs & Hscan & Hmono & Hall & Hwho).
  exists bm, bs. split; [exact Hscan|]. split; [exact Hall|].
  assert (Hacc : (100 < bs)%Z -> exists u, verdict bm bs = Accepted u bs).
  { intros Hbig. destruct Hwho as [[_ ->]|(k & u & r & _ & _ & -> & _)]; [lia|].
    exists u. unfold verdict. rewrite (proj2 (Z.ltb_lt _ _) Hbig). reflexivity. }
  assert (Hrej : (bs <= 100)%Z -> verdict bm bs = Rejected bs).
  { intros Hsmall. unfold verdict.
    rewrite (proj2 (Z.ltb_ge _ _) Hsmall). reflexivity. }
  assert (Hmax : (100 < bs)%Z -> exists r, r ∈ rs /\ (100 < contribution r)%Z).
  { intros Hbig. destruct Hwho as [[_ ->]|(k & u & r & _ & Hk & _ & Hc & Hs & _)]; [lia|].
    exists r. split; [eapply list_elem_of_lookup_2; exact Hk|].
    unfold contribution. rewrite (proj2 (Z.eqb_eq _ _) Hc). lia. }
  split; [|split].
  - split.
    + intros [u Hu]. apply Hmax.
      destruct (Z.lt_ge_cases 100 bs) as [|Hle]; [assumption|].
      rewrite (Hrej Hle) in Hu. discriminate.
    + intros (r & Hin & Hr). apply Hacc. specialize (Hall r Hin). lia.
  - intros Hle. apply Hrej.
    destruct (Z.lt_ge_cases 100 bs) as [Hbig|]; [|assumption].
    destruct (Hmax Hbig) as (r & Hin & Hr). specialize (Hle r Hin). lia.
  - rewrite (verifyFingerprint_scan E st st1 t Hne Hcap Ht), Hscan.
    unfold after_scan. destruct (verdict bm bs); simpl; auto.
Qed.

Lemma verify_accepted_iff_max_above_100_witness :
  exists bm bs,
    scan (env_of 1700040000000 [score 40; score 150; score 90] false)
      "UFJPQkU=" 0 [ani; budi; citra] None 0 = Completed bm bs
    /\ exists u, verdict bm bs = Accepted u bs.
Proof.
  destruct
    (verify_accepted_iff_max_above_100
       (env_of 1700040000000 [score 40; score 150; score 90] false) gallery3
       (captureFingerprint
          (env_of 1700040000000 [score 40; score 150; score 90] false)
          gallery3).1
       "UFJPQkU="
       [ {| ErrorCode := 0; MatchingScore := 40 |};
         {| ErrorCode := 0; MatchingScore := 150 |};
         {| ErrorCode := 0; MatchingScore := 90 |} ]
       ltac:(discriminate) ltac:(reflexivity) ltac:(reflexivity)
       ltac:(reflexivity))
    as (bm & bs & Hscan & _ & Hiff & _).
  exists bm, bs. split; [exact Hscan|].
  apply Hiff. exists {| ErrorCode := 0; MatchingScore := 150 |}.
  split; [|reflexivity]. apply elem_of_cons. right. apply elem_of_cons. left.
  reflexivity.
Defined.

(** The two score sequences of the specification's examples. *)
Example scan_40_150_90 :
  scan (env_of 1700040000000 [score 40; score 150; score 90] false)
    "UFJPQkU=" 0 [ani; budi; citra] None 0 = Completed (Some budi) 150
  /\ verdict (Some budi) 150 = Accepted budi 150.
Proof. split; reflexivity. Qed.

Example scan_30_50_100 :
  scan (env_of 1700040000000 [score 30; score 50; score 100] false)
    "UFJPQkU=" 0 [ani; budi; citra] None 0 = Completed (Some citra) 100
  /\ verdict (Some citra) 100 = Rejected 100.
Proof. split; reflexivity. Qed.

Example scan_tie_keeps_first :
  scan (env_of 1700040000000 [score 120; score 120; score 90] false)
    "UFJPQkU=" 0 [ani; budi; citra] None 0 = Completed (Some ani) 120.
Proof. reflexivity. Qed.

(** C3, as stated, fails when no reply scores above 0: the only record of
    this gallery achieves the maximum score 0 of a valid comparison, and the
    scan ends with no identity recorded. *)
Lemma scan_zero_score_no_identity :
  requests (env_of 1700040000000 [score 0] false) "UFJPQkU=" 0 [ani]
  = [inr {| ErrorCode := 0; MatchingScore := 0 |}]
  /\ scan (env_of 1700040000000 [score 0] false) "UFJPQkU=" 0 [ani] None 0
     = Completed None 0
  /\ ~ exists u bs,
         scan (env_of 1700040000000 [score 0] false) "UFJPQkU=" 0 [ani] None 0
         = Completed (Some u) bs.
Proof.
  split; [reflexivity|]. split; [reflexivity|].
  intros (u & bs & H). discriminate H.
Qed.

(** C3 (amended). With a decoded reply for every record, the scan is the
    strict running maximum in gallery order started from (no identity, 0):
    the final score bounds every contribution; if an identity is recorded
    it is the record at the first position whose contribution equals the
    final score, which is positive, every earlier contribution being
    strictly smaller (a later equal score does not replace it); an identity
    is recorded as soon as some contribution is positive, and otherwise
    none is and the final score is 0. *)
Theorem scan_keeps_first_maximum
    (E : Env) (t : string) (us : list User) (rs : list MatchReply) :
  requests E t 0 us = map inr rs ->
  exists bm bs,
    scan E t 0 us None 0 = Completed bm bs
    /\ (forall r, r ∈ rs -> (contribution r <= bs)%Z)
    /\ ((exists r, r ∈ rs /\ (0 < contribution r)%Z) -> is_Some bm)
    /\ match bm with
       | Some u =>
           exists k r,
             us !! k = Some u /\ rs !! k = Some r
             /\ contribution r = bs /\ (0 < bs)%Z
             /\ forall j r', j < k -> rs !! j = Some r' ->
                             (contribution r' < bs)%Z
       | None => bs = 0%Z
       end.
Proof.
  intros Hrs.
  destruct (scan_reduction E t us rs 0 None 0%Z Hrs ltac:(lia))
    as (bm & bs & Hscan & Hmono & Hall & Hwho).
  exists bm, bs. split; [exact Hscan|]. split; [exact Hall|].
  destruct Hwho as [[-> ->]|(k & u & r & Hu & Hk & -> & Hc & Hs & Hlt & Hfirst)].
  - split; [|reflexivity].
    intros (r & Hin & Hpos). specialize (Hall r Hin). lia.
  - split; [eauto|].
    exists k, r. repeat split; auto.
    unfold contribution. rewrite (proj2 (Z.eqb_eq _ _) Hc). exact Hs.
Qed.

Lemma scan_keeps_first_maximum_witness :
  exists bm bs,
    scan (env_of 1700040000000 [score 120; score 120; score 90] false)
      "UFJPQkU=" 0 [ani; budi; citra] None 0 = Completed bm bs
    /\ is_Some bm.
Proof.
  destruct
    (scan_keeps_first_maximum
       (env_of 1700040000000 [score 120; score 120; score 90] false)
       "UFJPQkU=" [ani; budi; citra]
       [ {| ErrorCode := 0; MatchingScore := 120 |};
         {| ErrorCode := 0; MatchingScore := 120 |};
         {| ErrorCode := 0; MatchingScore := 90 |} ]
       ltac:(reflexivity))
    as (bm & bs & Hscan & _ & Hsome & _).
  exists bm, bs. split; [exact Hscan|].
  apply Hsome. exists {| ErrorCode := 0; MatchingScore := 120 |}.
  split; [apply elem_of_cons; left|]; reflexivity.
Defined.

(** C9. A scan that ran through from (no identity, score 0) never holds a
    positive score without the identity that achieved it: the final score
    is non-negative, it is 0 when no identity is recorded, and a final
    score above 100 comes with a record of the gallery, so that the
    accepted branch is taken with that record. *)
Theorem accepted_has_identity
    (E : Env) (t : string) (us : list User) (bm : option User) (bs : Z) :
  scan E t 0 us None 0 = Completed bm bs ->
  (0 <= bs)%Z
  /\ (bm = None -> bs = 0%Z)
  /\ ((100 < bs)%Z ->
      exists u, bm = Some u /\ u ∈ us /\ verdict bm bs = Accepted u bs).
Proof.
  intros Hscan.
  destruct (scan_completed_replies E t us 0 None 0%Z bm bs Hscan) as [rs Hrs].
  destruct (scan_reduction E t us rs 0 None 0%Z Hrs ltac:(lia))
    as (bm' & bs' & Hscan' & Hmono & _ & Hwho).
  rewrite Hscan in Hscan'. injection Hscan' as <- <-.
  split; [exact Hmono|].
  destruct Hwho as [[-> ->]|(k & u & r & Hu & _ & -> & _)].
  - split; [reflexivity|]. lia.
  - split; [discriminate|]. intros Hbig. exists u.
    split; [reflexivity|]. split; [eapply list_elem_of_lookup_2; exact Hu|].
    unfold verdict. rewrite (proj2 (Z.ltb_lt _ _) Hbig). reflexivity.
Qed.

Lemma accepted_has_identity_witness :
  exists u, Some budi = Some u /\ u ∈ [ani; budi; citra]
            /\ verdict (Some budi) 150 = Accepted u 150.
Proof.
  refine
    (proj2 (proj2
       (accepted_has_identity
          (env_of 1700040000000 [score 40; score 150; score 90] false)
          "UFJPQkU=" [ani; budi; citra] (Some budi) 150 _)) _);
    reflexivity.
Defined.

(** ** Failures during the scan *)

(** C4 (code defect).  A comparison response with a non-2xx status is a
    transport failure, which the capture path treats as one by testing
    [response.ok]; the comparison loop has no such test.  Here the second
    comparison is answered with HTTP 500 and a body that decodes to a valid
    comparison of score 150: the request does not throw, the scan is not
    aborted and runs through, the attempt is accepted for the second record
    with the success message, and a success entry is written to the audit
    log, where the specified contract (a transport failure is no response,
    a malformed body or a non-2xx status) requires the scan to be aborted
    with a transport error and no outcome.  The same status on the capture request makes
    [captureFingerprint] return no template. *)
Theorem http_error_comparison_is_scored :
  response_ok 500 = false
  /\ match_request (env_of 1700040000000 answers_with_500 false) 1
       "UFJPQkU=" (user_template budi)
     = inr {| ErrorCode := 0; MatchingScore := 150 |}
  /\ scan (env_of 1700040000000 answers_with_500 false) "UFJPQkU=" 0
       (users gallery3) None 0 = Completed (Some budi) 150
  /\ message
       (verifyFingerprint (env_of 1700040000000 answers_with_500 false)
          gallery3)
     = "✓ Verifikasi Berhasil! Budi (Score: 150/199)"
  /\ audit_log
       (localStorage
          (verifyFingerprint (env_of 1700040000000 answers_with_500 false)
             gallery3))
     = Some [JObj [("timestamp", JStr "2023-11-15T02:00:00.000Z");
                   ("userName", JStr "Budi"); ("score", JNum 150);
                   ("success", JBool true)]]
  /\ (captureFingerprint
        (env_capturing
           (Response 500
              (inr {| cr_ErrorCode := 0; cr_TemplateBase64 := "UFJPQkU=";
                      cr_BMPBase64 := "Qk0="; cr_ImageQuality := 92;
                      cr_NFIQ := 1 |})) false) gallery3).2 = None.
Proof. repeat split; reflexivity. Qed.



(** A reply with a non-zero ErrorCode between two valid ones: the scan goes
    on and the later record still wins. *)
Example scan_error_code_skipped :
  scan
    (env_of 1700040000000
       [score 40;
        Response 200 (inr {| ErrorCode := 105; MatchingScore := 199 |});
        score 150] false)
    "UFJPQkU=" 0 [ani; budi; citra] None 0 = Completed (Some citra) 150.
Proof. reflexivity. Qed.

(** C10. When the scan is aborted, the handler writes nothing after the
    capture: the storage is the one the capture left, and the stored audit
    log is the one from before the handler ran. *)
Theorem aborted_scan_writes_no_audit_entry
    (E : Env) (st st1 : State) (t err : string) :
  users st <> [] ->
  captureFingerprint E st = (st1, Some t) -> truthy_string t = true ->
  scan E t 0 (users st) None 0 = Aborted err ->
  localStorage (verifyFingerprint E st) = localStorage st1
  /\ localStorage (verifyFingerprint E st) !! "verificationLogs"
     = localStorage st !! "verificationLogs"
  /\ audit_log (localStorage (verifyFingerprint E st))
     = audit_log (localStorage st).
Proof.
  intros Hne Hcap Ht Hab.
  rewrite (verifyFingerprint_scan E st st1 t Hne Hcap Ht), Hab. simpl.
  destruct (captureFingerprint_frame E st st1 _ Hcap) as (_ & _ & Hlog).
  split; [reflexivity|]. split; [exact Hlog|].
  unfold audit_log. rewrite Hlog. reflexivity.
Qed.

Lemma aborted_scan_writes_no_audit_entry_witness :
  audit_log
    (localStorage
       (verifyFingerprint
          (env_of 1700040000000
             [score 140; Response 200 (inl "Unexpected end of JSON input")]
             false)
          gallery3))
  = audit_log (localStorage gallery3).
Proof.
  refine
    (proj2 (proj2
       (aborted_scan_writes_no_audit_entry
          (env_of 1700040000000
             [score 140; Response 200 (inl "Unexpected end of JSON input")]
             false)
          gallery3 _ "UFJPQkU=" "Unexpected end of JSON input" _ _ _ _)));
    [discriminate|reflexivity|reflexivity|reflexivity].
Defined.

(** ** The audit log *)

Lemma keep_last_50 (pushed : list JSON) :
  (if 50 <? length pushed then drop (length pushed - 50) pushed else pushed)
  = drop (length pushed - 50) pushed.
Proof.
  destruct (50 <? length pushed) eqn:H; [reflexivity|].
  apply Nat.ltb_ge in H.
  replace (length pushed - 50) with 0 by lia. reflexivity.
Qed.

Lemma audit_log_ext (ls ls' : gmap string Text) :
  ls' !! "verificationLogs" = ls !! "verificationLogs" ->
  audit_log ls' = audit_log ls.
Proof. intros H. unfold audit_log. rewrite H. reflexivity. Qed.

Lemma saveVerificationLog_array E entry ls entries :
  audit_log ls = Some entries ->
  saveVerificationLog E entry ls
  = match setItem E "verificationLogs"
            (Json (JArr (drop (length (entries ++ [entry]) - 50)
                           (entries ++ [entry])))) ls with
    | Some ls' => ls'
    | None => ls
    end.
Proof.
  unfold audit_log, saveVerificationLog.
  destruct (ls !! "verificationLogs") as [t|].
  - destruct (truthy_text t).
    + destruct t as [v|raw]; simpl; [|discriminate].
      destruct v; try discriminate. intros [= ->].
      rewrite keep_last_50. reflexivity.
    + intros [= <-]. simpl. reflexivity.
  - intros [= <-]. simpl. reflexivity.
Qed.

Lemma saveVerificationLog_no_array E entry ls :
  audit_log ls = None -> saveVerificationLog E entry ls = ls.
Proof.
  unfold audit_log, saveVerificationLog.
  destruct (ls !! "verificationLogs") as [t|]; [|discriminate].
  destruct (truthy_text t); [|discriminate].
  destruct t as [v|raw]; simpl; [|reflexivity].
  destruct v; try reflexivity. discriminate.
Qed.

Lemma audit_log_written (ls : gmap string Text) (kept : list JSON) :
  audit_log (<["verificationLogs" := Json (JArr kept)]> ls) = Some kept.
Proof. unfold audit_log. rewrite lookup_insert_eq. reflexivity. Qed.

Lemma length_last_50 (pushed : list JSON) :
  length (drop (length pushed - 50) pushed) <= 50.
Proof. rewrite length_drop. lia. Qed.

Lemma saveVerificationLog_bounded E entry ls :
  log_bounded ls -> log_bounded (saveVerificationLog E entry ls).
Proof.
  intros Hb. destruct (audit_log ls) as [entries|] eqn:Hlog.
  - rewrite (saveVerificationLog_array E entry ls entries Hlog).
    unfold setItem. destruct (setItem_throws E ls _ _); [exact Hb|].
    intros l Hl. rewrite audit_log_written in Hl. injection Hl as <-.
    apply length_last_50.
  - rewrite (saveVerificationLog_no_array E entry ls Hlog). exact Hb.
Qed.

(** C5. Recording keeps the stored log within 50 entries, in the handler
    and in the recording step itself; when the step finds an array and its
    write goes through, the log read afterwards is the old one with the
    entry appended and then cut to its last 50 elements, oldest first: the
    entry is simply appended below 50 entries, and on a log of exactly 50
    the head is dropped and the other 49 follow in order before the new
    entry (so the oldest entry is gone unless it occurs again). *)
Theorem audit_log_keeps_last_50
    (E : Env) (entry : JSON) (ls : gmap string Text) :
  (log_bounded ls -> log_bounded (saveVerificationLog E entry ls))
  /\ (forall st, log_bounded (localStorage st) ->
                 log_bounded (localStorage (verifyFingerprint E st)))
  /\ (forall entries,
        audit_log ls = Some entries ->
        setItem_throws E ls "verificationLogs"
          (Json (JArr (drop (length (entries ++ [entry]) - 50)
                         (entries ++ [entry])))) = false ->
        audit_log (saveVerificationLog E entry ls)
        = Some (drop (length (entries ++ [entry]) - 50) (entries ++ [entry]))
        /\ length (drop (length (entries ++ [entry]) - 50)
                     (entries ++ [entry])) <= 50
        /\ (length entries < 50 ->
            audit_log (saveVerificationLog E entry ls)
            = Some (entries ++ [entry]))
        /\ (forall oldest rest,
              entries = oldest :: rest -> length entries = 50 ->
              audit_log (saveVerificationLog E entry ls)
              = Some (rest ++ [entry])
              /\ (oldest ∉ rest -> oldest <> entry ->
                  oldest ∉ rest ++ [entry]))).
Proof.
  split; [apply saveVerificationLog_bounded|]. split.
  - intros st Hb. unfold verifyFingerprint.
    destruct (length (users st) =? 0); [exact Hb|].
    destruct (captureFingerprint E st) as [st1 template] eqn:Hcap.
    destruct (captureFingerprint_frame E st st1 _ Hcap) as (_ & _ & Hlog).
    assert (Hb1 : log_bounded (localStorage st1)).
    { intros l Hl. apply Hb. rewrite <- Hl. symmetry.
      apply audit_log_ext. exact Hlog. }
    destruct template as [t|]; [|exact Hb1].
    destruct (negb (truthy_string t)); [exact Hb1|].
    unfold after_scan.
    destruct (scan E t 0 (users st) None 0) as [err|bm bs]; [exact Hb1|].
    destruct (verdict bm bs); simpl; apply saveVerificationLog_bounded;
      exact Hb1.
  - intros entries Hlog Hok.
    rewrite (saveVerificationLog_array E entry ls entries Hlog).
    unfold setItem. rewrite Hok. rewrite audit_log_written.
    split; [reflexivity|]. split; [apply length_last_50|]. split.
    + intros Hlt. rewrite length_app. simpl.
      replace (length entries + 1 - 50) with 0 by lia. reflexivity.
    + intros oldest rest -> Hlen. cbn [length] in Hlen.
      replace (length ((oldest :: rest) ++ [entry]) - 50) with 1
        by (rewrite length_app; cbn [length]; lia).
      split; [reflexivity|].
      intros Hrest Hentry Hin. apply elem_of_app in Hin as [Hin|Hin];
        [auto|]. apply list_elem_of_singleton in Hin. auto.
Qed.

Lemma audit_log_keeps_last_50_witness :
  log_bounded
    (saveVerificationLog quiet_env (failureLog quiet_env 77)
       {["verificationLogs" := Json (JArr fifty_entries)]})
  /\ log_bounded (localStorage (verifyFingerprint quiet_env gallery3))
  /\ audit_log
       (saveVerificationLog quiet_env (failureLog quiet_env 77)
          {["verificationLogs" := Json (JArr fifty_entries)]})
     = Some (tail fifty_entries ++ [failureLog quiet_env 77]).
Proof.
  destruct
    (audit_log_keeps_last_50 quiet_env (failureLog quiet_env 77)
       {["verificationLogs" := Json (JArr fifty_entries)]})
    as (Hstep & Hverify & Hfifo).
  split; [|split].
  - apply Hstep. intros entries Hlog.
    unfold audit_log in Hlog. rewrite lookup_singleton_eq in Hlog.
    injection Hlog as <-. apply Nat.leb_le. reflexivity.
  - apply Hverify. intros entries Hlog.
    unfold audit_log in Hlog. simpl in Hlog. rewrite lookup_empty in Hlog.
    injection Hlog as <-. apply Nat.leb_le. reflexivity.
  - refine
      (proj1
         (proj2 (proj2 (proj2 (Hfifo fifty_entries _ _)))
            (hd JNull fifty_entries) (tail fifty_entries) _ _));
      reflexivity.
Defined.

(** ** Enrollment and deletion *)

Lemma enrollUser_success E st st1 t :
  truthy_string (trim (name st)) = true ->
  captureFingerprint E st = (st1, Some t) -> truthy_string t = true ->
  enrollUser E st
  = let newUser :=
      {| user_id := Date_now E; user_name := trim (name st);
         user_template := t; user_enrollDate := Date_toLocaleString E |} in
    let updatedUsers := users st ++ [newUser] in
    let st2 := setUsers updatedUsers st1 in
    setName ""
      match setItem E "fingerprintUsers"
              (JSON_stringify (users_toJSON updatedUsers))
              (localStorage st2) with
      | Some ls =>
          setMessage (name st +:+ " berhasil didaftarkan dan disimpan!")
            (setLocalStorage ls st2)
      | None =>
          setMessage
            (name st
               +:+ " berhasil didaftarkan, tetapi gagal menyimpan ke penyimpanan lokal")
            st2
      end.
Proof.
  intros Hname Hcap Ht. unfold enrollUser.
  rewrite Hname, Hcap, Ht. reflexivity.
Qed.

(** The stored name is the trimmed one, also for white space outside
    ASCII: U+00A0 in front and U+3000 behind are dropped. *)
Example enrollUser_trims_unicode_name :
  users (enrollUser (env_of 1700040000000 [] false)
           (state_of [ani] (nbsp +:+ "Dewi" +:+ bytes [227; 128; 128])))
  = [ani;
     {| user_id := 1700040000000; user_name := "Dewi";
        user_template := "UFJPQkU=";
        user_enrollDate := "15/11/2023, 09.00.00" |}].
Proof. reflexivity. Qed.

(** C1, as stated, fails: the gallery holds a record whose id is the
    clock reading at which the next enrollment happens (an imported
    gallery, a clock set back); the enrollment succeeds and the new record
    carries the same id as the old one. *)
Lemma enrollUser_id_clash :
  truthy_string (trim (name (state_of [ani] "Dewi"))) = true
  /\ (captureFingerprint (env_of 1700000000000 [] false)
        (state_of [ani] "Dewi")).2 = Some "UFJPQkU="
  /\ exists new,
       users (enrollUser (env_of 1700000000000 [] false)
                (state_of [ani] "Dewi"))
       = users (state_of [ani] "Dewi") ++ [new]
       /\ exists old, old ∈ users (state_of [ani] "Dewi")
                      /\ user_id old = user_id new.
Proof.
  split; [reflexivity|]. split; [reflexivity|].
  exists {| user_id := 1700000000000; user_name := "Dewi";
            user_template := "UFJPQkU=";
            user_enrollDate := "15/11/2023, 09.00.00" |}.
  split; [reflexivity|].
  exists ani. split; [apply elem_of_cons; left|]; reflexivity.
Qed.

(** C1 (amended). A successful enrollment (the trimmed name is not empty
    and the capture returns a non-empty template) appends exactly one
    record at the end of the gallery, so the size grows by one; the id of
    the new record is the clock reading, hence it differs from every prior
    id exactly when no prior record carries that reading, which is the case
    whenever the clock is past every prior id. *)
Theorem enrollUser_appends_one (E : Env) (st st1 : State) (t : string) :
  truthy_string (trim (name st)) = true ->
  captureFingerprint E st = (st1, Some t) -> truthy_string t = true ->
  let newUser :=
    {| user_id := Date_now E; user_name := trim (name st);
       user_template := t; user_enrollDate := Date_toLocaleString E |} in
  users (enrollUser E st) = users st ++ [newUser]
  /\ length (users (enrollUser E st)) = S (length (users st))
  /\ ((forall u, u ∈ users st -> user_id u <> user_id newUser)
      <-> Date_now E ∉ user_id <$> users st)
  /\ ((forall u, u ∈ users st -> (user_id u < Date_now E)%Z) ->
      forall u, u ∈ users st -> user_id u <> user_id newUser).
Proof.
  intros Hname Hcap Ht newUser.
  assert (Hus : users (enrollUser E st) = users st ++ [newUser]).
  { rewrite (enrollUser_success E st st1 t Hname Hcap Ht). simpl.
    destruct (setItem E "fingerprintUsers" _ _); reflexivity. }
  split; [exact Hus|]. split.
  { rewrite Hus, length_app. simpl. lia. }
  split.
  - split.
    + intros Hall Hin. apply list_elem_of_fmap in Hin as (u & Hid & Hu).
      apply (Hall u Hu). simpl. congruence.
    + intros Hfresh u Hu Hid. apply Hfresh.
      apply list_elem_of_fmap. exists u. split; [|exact Hu].
      simpl in Hid. congruence.
  - intros Hpast u Hu Hid. specialize (Hpast u Hu). simpl in Hid. lia.
Qed.

Lemma enrollUser_appends_one_witness :
  users (enrollUser (env_of 1700040000000 [] false)
           (state_of [ani; budi] "  Dewi "))
  = [ani; budi;
     {| user_id := 1700040000000; user_name := "Dewi";
        user_template := "UFJPQkU=";
        user_enrollDate := "15/11/2023, 09.00.00" |}].
Proof.
  refine
    (proj1
       (enrollUser_appends_one (env_of 1700040000000 [] false)
          (state_of [ani; budi] "  Dewi ") _ "UFJPQkU=" _ _ _));
    reflexivity.
Defined.

(** C8. When the write of the gallery to storage throws, an enrollment
    still appends the new record and a deletion still removes the records
    with the given id; the storage is left as it was and the message
    reports the failed write.  The effect that re-saves the gallery after
    the render does not touch the gallery either, whether it can write or
    not. *)
Theorem storage_failure_keeps_mutation (E : Env) (st : State) :
  (forall st1 t,
      truthy_string (trim (name st)) = true ->
      captureFingerprint E st = (st1, Some t) -> truthy_string t = true ->
      let newUser :=
        {| user_id := Date_now E; user_name := trim (name st);
           user_template := t; user_enrollDate := Date_toLocaleString E |} in
      setItem E "fingerprintUsers"
        (JSON_stringify (users_toJSON (users st ++ [newUser])))
        (localStorage st1) = None ->
      users (enrollUser E st) = users st ++ [newUser]
      /\ localStorage (enrollUser E st) = localStorage st1
      /\ message (enrollUser E st)
         = name st
             +:+ " berhasil didaftarkan, tetapi gagal menyimpan ke penyimpanan lokal")
  /\ (forall id,
        setItem E "fingerprintUsers"
          (JSON_stringify
             (users_toJSON (filter (fun u => user_id u <> id) (users st))))
          (localStorage st) = None ->
        users (deleteUser E id st)
        = filter (fun u => user_id u <> id) (users st)
        /\ localStorage (deleteUser E id st) = localStorage st
        /\ message (deleteUser E id st)
           = "User berhasil dihapus, tetapi gagal memperbarui penyimpanan lokal")
  /\ (forall E', users (usersEffect E' st) = users st).
Proof.
  split; [|split].
  - intros st1 t Hname Hcap Ht newUser Hfail.
    rewrite (enrollUser_success E st st1 t Hname Hcap Ht). cbn zeta.
    fold newUser. cbn [localStorage setUsers]. rewrite Hfail.
    repeat split.
  - intros id Hfail. unfold deleteUser. cbn [localStorage setUsers].
    rewrite Hfail. repeat split.
  - intros E'. unfold usersEffect, saveUsersToStorage.
    destruct (_ || _)%bool; [|reflexivity].
    destruct (setItem E' "fingerprintUsers" _ _); reflexivity.
Qed.

Lemma storage_failure_keeps_mutation_witness :
  users (enrollUser (env_of 1700040000000 [] true)
           (state_of [ani; budi; citra] "Dewi"))
  = [ani; budi; citra;
     {| user_id := 1700040000000; user_name := "Dewi";
        user_template := "UFJPQkU=";
        user_enrollDate := "15/11/2023, 09.00.00" |}]
  /\ users (deleteUser (env_of 1700040000000 [] true) 1700000060000
              (state_of [ani; budi; citra] "Dewi"))
     = [ani; citra]
  /\ localStorage
       (deleteUser (env_of 1700040000000 [] true) 1700000060000
          (state_of [ani; budi; citra] "Dewi"))
     = ∅.
Proof.
  destruct
    (storage_failure_keeps_mutation (env_of 1700040000000 [] true)
       (state_of [ani; budi; citra] "Dewi"))
    as (Henroll & Hdelete & _).
  destruct
    (Henroll _ "UFJPQkU=" ltac:(reflexivity) ltac:(reflexivity)
       ltac:(reflexivity) ltac:(reflexivity))
    as (Hadded & _).
  destruct (Hdelete 1700000060000%Z ltac:(reflexivity))
    as (Hremoved & Hstore & _).
  split; [exact Hadded|]. split; [exact Hremoved|exact Hstore].
Defined.

(** * Further properties of the handlers *)

(** ** getErrorDescription *)

(** X1. The table of device errors covers the codes 51 to 61 and 63 and
    nothing else: every other code, 0 and 62 included, is described as
    "Unknown error", and none of the listed codes is. *)
Theorem getErrorDescription_unknown_iff (code : Z) :
  getErrorDescription code = "Unknown error"
  <-> ~ ((51 <= code <= 61)%Z \/ code = 63%Z).
Proof.
  split.
  - intros Hdesc Hlisted.
    assert (Hcases :
      (code = 51 \/ code = 52 \/ code = 53 \/ code = 54 \/ code = 55
       \/ code = 56 \/ code = 57 \/ code = 58 \/ code = 59 \/ code = 60
       \/ code = 61 \/ code = 63)%Z) by lia.
    repeat (destruct Hcases as [->|Hcases]; [discriminate Hdesc|]).
    subst code. discriminate Hdesc.
  - intros Hother.
    destruct code as [|p|p]; [reflexivity| |reflexivity].
    do 7 (try destruct p as [p|p|]); try reflexivity;
      exfalso; apply Hother; lia.
Qed.

(** ** captureFingerprint *)

Lemma capture_request_reply E data :
  capture_request E = inr data
  <-> exists status,
        SGIFPCapture E = Response status (inr data)
        /\ response_ok status = true.
Proof.
  unfold capture_request.
  destruct (SGIFPCapture E) as [msg|status body].
  - split; [discriminate|]. intros (s & [=] & _).
  - destruct (response_ok status) eqn:Hok.
    + split.
      * intros ->. exists status. auto.
      * intros (s & [= -> ->] & _). reflexivity.
    + split; [discriminate|]. intros (s & [= -> ->] & Hok'). congruence.
Qed.

Lemma captureFingerprint_other_keys E st k :
  k <> "lastCaptured" ->
  localStorage (captureFingerprint E st).1 !! k = localStorage st !! k.
Proof.
  intros Hk. unfold captureFingerprint.
  destruct (capture_request E) as [err|data]; [reflexivity|].
  destruct (cr_ErrorCode data =? 0)%Z; [|reflexivity].
  destruct (setItem E "lastCaptured" _ _) as [ls|] eqn:Hset; simpl;
    [|reflexivity].
  eapply setItem_other; [exact Hset|congruence].
Qed.

(** X2. Whatever the endpoint answers, [captureFingerprint] ends with
    [isCapturing] false, leaves the gallery and the name field alone and
    writes to no storage key but "lastCaptured"; it returns a template
    exactly when a response with a 2xx status decodes to a reply whose
    ErrorCode is 0, and the template is then that reply's. *)
Theorem captureFingerprint_outcome (E : Env) (st : State) :
  isCapturing (captureFingerprint E st).1 = false
  /\ users (captureFingerprint E st).1 = users st
  /\ name (captureFingerprint E st).1 = name st
  /\ (forall k, k <> "lastCaptured" ->
                localStorage (captureFingerprint E st).1 !! k
                = localStorage st !! k)
  /\ (forall t,
        (captureFingerprint E st).2 = Some t
        <-> exists status data,
              SGIFPCapture E = Response status (inr data)
              /\ response_ok status = true
              /\ cr_ErrorCode data = 0%Z /\ cr_TemplateBase64 data = t).
Proof.
  unfold captureFingerprint.
  destruct (capture_request E) as [err|data] eqn:Hreq.
  - simpl. repeat split; auto; [discriminate|].
    intros (status & data & Hresp & Hok & _).
    assert (capture_request E = inr data) as Habs
      by (apply capture_request_reply; eauto).
    congruence.
  - destruct (cr_ErrorCode data =? 0)%Z eqn:Hc.
    + apply Z.eqb_eq in Hc.
      destruct (setItem E "lastCaptured" _ _) as [ls|] eqn:Hset; simpl;
        repeat split; auto.
      * intros k Hk. eapply setItem_other; [exact Hset|congruence].
      * intros [= <-]. apply capture_request_reply in Hreq as (status & ? & ?).
        exists status, data. auto.
      * intros (status & data' & Hresp & Hok & _ & <-).
        assert (capture_request E = inr data') as Habs
          by (apply capture_request_reply; eauto).
        congruence.
      * intros [= <-]. apply capture_request_reply in Hreq as (status & ? & ?).
        exists status, data. auto.
      * intros (status & data' & Hresp & Hok & _ & <-).
        assert (capture_request E = inr data') as Habs
          by (apply capture_request_reply; eauto).
        congruence.
    + simpl. repeat split; auto; [discriminate|].
      intros (status & data' & Hresp & Hok & Hzero & _).
      assert (capture_request E = inr data') as Habs
        by (apply capture_request_reply; eauto).
      rewrite Hreq in Habs. injection Habs as <-.
      apply Z.eqb_neq in Hc. contradiction.
Qed.

Lemma captureFingerprint_outcome_witness :
  localStorage (captureFingerprint quiet_env gallery3).1 !! "fingerprintUsers"
  = localStorage gallery3 !! "fingerprintUsers".
Proof.
  refine
    (proj1 (proj2 (proj2 (proj2
       (captureFingerprint_outcome quiet_env gallery3))))
       "fingerprintUsers" _).
  discriminate.
Defined.

(** X3. A capture that returns no template changes nothing but the message
    and the capturing flag: last capture, storage, gallery and storage
    status are those of before. *)
Theorem captureFingerprint_failure_frame (E : Env) (st : State) :
  (captureFingerprint E st).2 = None ->
  lastCaptured (captureFingerprint E st).1 = lastCaptured st
  /\ localStorage (captureFingerprint E st).1 = localStorage st
  /\ users (captureFingerprint E st).1 = users st
  /\ storageStatus (captureFingerprint E st).1 = storageStatus st.
Proof.
  unfold captureFingerprint.
  destruct (capture_request E) as [err|data]; [simpl; auto|].
  destruct (cr_ErrorCode data =? 0)%Z; [|simpl; auto].
  simpl. discriminate.
Qed.

Lemma captureFingerprint_failure_frame_witness :
  lastCaptured
    (captureFingerprint
       (env_capturing (NetworkError "Failed to fetch") false) gallery3).1
  = None
  /\ localStorage
       (captureFingerprint
          (env_capturing (NetworkError "Failed to fetch") false) gallery3).1
     = ∅
  /\ users
       (captureFingerprint
          (env_capturing (NetworkError "Failed to fetch") false) gallery3).1
     = [ani; budi; citra]
  /\ storageStatus
       (captureFingerprint
          (env_capturing (NetworkError "Failed to fetch") false) gallery3).1
     = idle.
Proof.
  exact
    (captureFingerprint_failure_frame
       (env_capturing (NetworkError "Failed to fetch") false) gallery3
       eq_refl).
Defined.

(** X4. A response whose status is outside 200..299 is reported as the
    connection error "HTTP <status>" and its body is never used, even when
    it decodes to a successful capture. *)
Theorem captureFingerprint_http_status
    (E : Env) (st : State) (status : Z) (body : string + CaptureReply) :
  SGIFPCapture E = Response status body -> response_ok status = false ->
  (captureFingerprint E st).2 = None
  /\ message (captureFingerprint E st).1
     = "Error koneksi: " +:+ ("HTTP " +:+ pretty status)
         +:+ ". Pastikan SGIBIOSRV berjalan di port 8443"
  /\ lastCaptured (captureFingerprint E st).1 = lastCaptured st.
Proof.
  intros Hresp Hok. unfold captureFingerprint, capture_request.
  rewrite Hresp, Hok. simpl. auto.
Qed.

Lemma captureFingerprint_http_status_witness :
  (captureFingerprint
     (env_capturing
        (Response 500
           (inr {| cr_ErrorCode := 0; cr_TemplateBase64 := "UFJPQkU=";
                   cr_BMPBase64 := "Qk0="; cr_ImageQuality := 92;
                   cr_NFIQ := 1 |})) false) gallery3).2 = None
  /\ message
       (captureFingerprint
          (env_capturing
             (Response 500
                (inr {| cr_ErrorCode := 0; cr_TemplateBase64 := "UFJPQkU=";
                        cr_BMPBase64 := "Qk0="; cr_ImageQuality := 92;
                        cr_NFIQ := 1 |})) false) gallery3).1
     = "Error koneksi: HTTP 500. Pastikan SGIBIOSRV berjalan di port 8443"
  /\ lastCaptured
       (captureFingerprint
          (env_capturing
             (Response 500
                (inr {| cr_ErrorCode := 0; cr_TemplateBase64 := "UFJPQkU=";
                        cr_BMPBase64 := "Qk0="; cr_ImageQuality := 92;
                        cr_NFIQ := 1 |})) false) gallery3).1
     = None.
Proof.
  exact
    (captureFingerprint_http_status
       (env_capturing
          (Response 500
             (inr {| cr_ErrorCode := 0; cr_TemplateBase64 := "UFJPQkU=";
                     cr_BMPBase64 := "Qk0="; cr_ImageQuality := 92;
                     cr_NFIQ := 1 |})) false)
       gallery3 500 _ eq_refl eq_refl).
Defined.

(** X5. On a successful capture the in-memory last capture is set from the
    reply whether or not the storage write goes through: when [setItem]
    throws the storage is as before, otherwise the "lastCaptured" slot holds
    a JSON text that decodes back to the same record. *)
Theorem captureFingerprint_success
    (E : Env) (st : State) (status : Z) (data : CaptureReply) :
  SGIFPCapture E = Response status (inr data) ->
  response_ok status = true -> cr_ErrorCode data = 0%Z ->
  (captureFingerprint E st).2 = Some (cr_TemplateBase64 data)
  /\ lastCaptured (captureFingerprint E st).1 = Some (capturedData_of data)
  /\ if setItem_throws E (localStorage st) "lastCaptured"
          (Json (CapturedData_toJSON (capturedData_of data)))
     then localStorage (captureFingerprint E st).1 = localStorage st
     else exists v,
            localStorage (captureFingerprint E st).1 !! "lastCaptured"
            = Some (Json v)
            /\ CapturedData_ofJSON v = Some (capturedData_of data).
Proof.
  intros Hresp Hok Hc. unfold captureFingerprint, capture_request.
  rewrite Hresp, Hok, (proj2 (Z.eqb_eq _ _) Hc).
  fold (capturedData_of data). unfold setItem.
  cbn [localStorage setLastCaptured setMessage setIsCapturing].
  destruct (setItem_throws E (localStorage st) "lastCaptured" _) eqn:Hthrow;
    simpl; repeat split; auto.
  exists (CapturedData_toJSON (capturedData_of data)).
  rewrite lookup_insert_eq. split; [reflexivity|].
  apply CapturedData_ofJSON_toJSON.
Qed.

Lemma captureFingerprint_success_witness :
  (captureFingerprint (env_capturing good_capture true) gallery3).2
  = Some "UFJPQkU="
  /\ lastCaptured (captureFingerprint (env_capturing good_capture true)
                     gallery3).1
     = Some {| cap_template := "UFJPQkU="; cap_image := "Qk0=";
               cap_quality := 92; cap_nfiq := 1 |}
  /\ localStorage (captureFingerprint (env_capturing good_capture true)
                     gallery3).1 = ∅.
Proof.
  exact
    (captureFingerprint_success (env_capturing good_capture true) gallery3 200
       {| cr_ErrorCode := 0; cr_TemplateBase64 := "UFJPQkU=";
          cr_BMPBase64 := "Qk0="; cr_ImageQuality := 92; cr_NFIQ := 1 |}
       eq_refl eq_refl eq_refl).
Defined.

(** ** enrollUser beyond the successful case *)

(** X6. Whatever happens, an enrollment attempt never removes or reorders
    records: the old gallery is a prefix of the new one, at most one record
    is added, and the stored audit log is not touched. *)
Theorem enrollUser_extends_gallery (E : Env) (st : State) :
  users st `prefix_of` users (enrollUser E st)
  /\ length (users (enrollUser E st)) <= S (length (users st))
  /\ localStorage (enrollUser E st) !! "verificationLogs"
     = localStorage st !! "verificationLogs".
Proof.
  unfold enrollUser.
  destruct (negb (truthy_string (trim (name st)))); [simpl; auto|].
  destruct (captureFingerprint E st) as [st1 template] eqn:Hcap.
  destruct (captureFingerprint_frame E st st1 _ Hcap) as (Hus & _ & Hlog).
  destruct template as [t|]; [|rewrite Hus; auto].
  destruct (truthy_string t); [|rewrite Hus; auto].
  cbn [localStorage setUsers].
  destruct (setItem E "fingerprintUsers" _ _) as [ls|] eqn:Hset; simpl.
  - split; [apply prefix_app_r; reflexivity|].
    split; [rewrite length_app; simpl; lia|].
    rewrite <- Hlog. eapply setItem_other; [exact Hset|discriminate].
  - split; [apply prefix_app_r; reflexivity|].
    split; [rewrite length_app; simpl; lia|]. exact Hlog.
Qed.

(** X7. No record is created from a blank name, a failed capture or an
    empty template.  With a name that is empty after trimming, nothing but
    the message changes and no capture is attempted, whatever the
    environment; when the capture returns no template or an empty one, the
    gallery, the name field and the stored gallery are as before. *)
Theorem enrollUser_without_record (E : Env) (st : State) :
  (truthy_string (trim (name st)) = false ->
   enrollUser E st = setMessage "Nama harus diisi!" st)
  /\ ((captureFingerprint E st).2 = None
      \/ (captureFingerprint E st).2 = Some "" ->
      users (enrollUser E st) = users st
      /\ name (enrollUser E st) = name st
      /\ localStorage (enrollUser E st) !! "fingerprintUsers"
         = localStorage st !! "fingerprintUsers").
Proof.
  split.
  - intros Hblank. unfold enrollUser. rewrite Hblank. reflexivity.
  - intros Hnone. unfold enrollUser.
    destruct (negb (truthy_string (trim (name st)))); [simpl; auto|].
    pose proof (captureFingerprint_other_keys E st "fingerprintUsers"
                  ltac:(discriminate)) as Hslot.
    destruct (captureFingerprint E st) as [st1 template] eqn:Hcap.
    destruct (captureFingerprint_frame E st st1 _ Hcap) as (Hus & Hname & _).
    simpl in *.
    destruct Hnone as [->| ->]; simpl; auto.
Qed.

Lemma enrollUser_without_record_witness :
  enrollUser quiet_env (state_of [ani] (" " +:+ nbsp))
  = setMessage "Nama harus diisi!" (state_of [ani] (" " +:+ nbsp))
  /\ users (enrollUser (env_capturing (NetworkError "Failed to fetch") false)
              (state_of [ani] "Dewi")) = [ani]
  /\ name (enrollUser (env_capturing (NetworkError "Failed to fetch") false)
             (state_of [ani] "Dewi")) = "Dewi".
Proof.
  split.
  - exact
      (proj1
         (enrollUser_without_record quiet_env
            (state_of [ani] (" " +:+ nbsp)))
         eq_refl).
  - destruct
      (proj2
         (enrollUser_without_record
            (env_capturing (NetworkError "Failed to fetch") false)
            (state_of [ani] "Dewi"))
         (or_introl eq_refl))
      as (Hus & Hname & _).
    split; [exact Hus|exact Hname].
Defined.

(** ** Saving and reloading the gallery *)

Lemma loadUsersFromStorage_stored (st : State) (us : list User) :
  localStorage st !! "fingerprintUsers" = Some (Json (users_toJSON us)) ->
  exists st',
    loadUsersFromStorage st = Some st'
    /\ users st' = us /\ storageStatus st' = idle
    /\ localStorage st' = localStorage st
    /\ lastCaptured st' = lastCaptured st.
Proof.
  intros Hslot. unfold loadUsersFromStorage. rewrite Hslot. simpl.
  rewrite users_ofJSON_toJSON. simpl. eexists. split; [reflexivity|].
  simpl. auto.
Qed.

(** X8. A successful enrollment whose storage write goes through leaves
    the stored gallery equal to the gallery in memory and empties the name
    field; loading from that storage, as a later mount does, yields exactly
    this gallery. *)
Theorem enrollUser_persisted (E : Env) (st st1 : State) (t : string) :
  truthy_string (trim (name st)) = true ->
  captureFingerprint E st = (st1, Some t) -> truthy_string t = true ->
  setItem_throws E (localStorage st1) "fingerprintUsers"
    (Json (users_toJSON
             (users st
                ++ [{| user_id := Date_now E; user_name := trim (name st);
                       user_template := t;
                       user_enrollDate := Date_toLocaleString E |}])))
  = false ->
  localStorage (enrollUser E st) !! "fingerprintUsers"
  = Some (Json (users_toJSON (users (enrollUser E st))))
  /\ name (enrollUser E st) = ""
  /\ exists st',
       loadUsersFromStorage (enrollUser E st) = Some st'
       /\ users st' = users (enrollUser E st).
Proof.
  intros Hname Hcap Ht Hok.
  assert (Hslot : localStorage (enrollUser E st) !! "fingerprintUsers"
                  = Some (Json (users_toJSON (users (enrollUser E st))))
                  /\ name (enrollUser E st) = "").
  { rewrite (enrollUser_success E st st1 t Hname Hcap Ht). cbn zeta.
    unfold setItem, JSON_stringify. cbn [localStorage setUsers].
    rewrite Hok. simpl. rewrite lookup_insert_eq. auto. }
  destruct Hslot as [Hslot Hn]. split; [exact Hslot|]. split; [exact Hn|].
  destruct (loadUsersFromStorage_stored _ _ Hslot) as (st' & Hload & Hus & _).
  exists st'. auto.
Qed.

Lemma enrollUser_persisted_witness :
  exists st',
    loadUsersFromStorage
      (enrollUser (env_of 1700040000000 [] false) (state_of [ani] "Dewi"))
    = Some st'
    /\ users st'
       = users (enrollUser (env_of 1700040000000 [] false)
                  (state_of [ani] "Dewi")).
Proof.
  exact
    (proj2 (proj2
       (enrollUser_persisted (env_of 1700040000000 [] false)
          (state_of [ani] "Dewi") _ "UFJPQkU=" eq_refl eq_refl eq_refl
          eq_refl))).
Defined.

(** X9. Saving and loading are inverse on the gallery: when the write of
    [saveUsersToStorage] goes through, [loadUsersFromStorage] on the
    resulting state succeeds with the same records in the same order and
    storage status idle. *)
Theorem save_load_roundtrip (E : Env) (st : State) :
  setItem_throws E (localStorage st) "fingerprintUsers"
    (Json (users_toJSON (users st))) = false ->
  exists st',
    loadUsersFromStorage (saveUsersToStorage E st) = Some st'
    /\ users st' = users st /\ storageStatus st' = idle.
Proof.
  intros Hok.
  assert (Hslot : localStorage (saveUsersToStorage E st) !! "fingerprintUsers"
                  = Some (Json (users_toJSON (users st)))).
  { unfold saveUsersToStorage, setItem, JSON_stringify.
    cbn [localStorage users setStorageStatus]. rewrite Hok. simpl.
    apply lookup_insert_eq. }
  destruct (loadUsersFromStorage_stored _ _ Hslot) as (st' & Hload & Hus & Hst & _).
  exists st'. auto.
Qed.

Lemma save_load_roundtrip_witness :
  exists st',
    loadUsersFromStorage (saveUsersToStorage quiet_env gallery3) = Some st'
    /\ users st' = [ani; budi; citra] /\ storageStatus st' = idle.
Proof. exact (save_load_roundtrip quiet_env gallery3 eq_refl). Defined.

(** X10. When the write of [saveUsersToStorage] throws, gallery and storage
    stay as they were and the status becomes error; if the gallery is empty
    the effect on [users] then stops saving: run again in that state, with
    any environment, it changes nothing. *)
Theorem save_failure_sticks (E : Env) (st : State) :
  setItem_throws E (localStorage st) "fingerprintUsers"
    (Json (users_toJSON (users st))) = true ->
  users (saveUsersToStorage E st) = users st
  /\ localStorage (saveUsersToStorage E st) = localStorage st
  /\ storageStatus (saveUsersToStorage E st) = error
  /\ (users st = [] ->
      forall E', usersEffect E' (saveUsersToStorage E st)
                 = saveUsersToStorage E st).
Proof.
  intros Hfail. unfold saveUsersToStorage, setItem, JSON_stringify.
  cbn [localStorage users setStorageStatus]. rewrite Hfail.
  repeat split. intros Hempty E'. unfold usersEffect. simpl.
  rewrite Hempty. reflexivity.
Qed.

Lemma save_failure_sticks_witness :
  storageStatus
    (saveUsersToStorage (env_of 1700040000000 [] true) (state_of [] ""))
  = error
  /\ usersEffect quiet_env
       (saveUsersToStorage (env_of 1700040000000 [] true) (state_of [] ""))
     = saveUsersToStorage (env_of 1700040000000 [] true) (state_of [] "").
Proof.
  destruct
    (save_failure_sticks (env_of 1700040000000 [] true) (state_of [] "")
       eq_refl)
    as (_ & _ & Hstatus & Hstuck).
  split; [exact Hstatus|exact (Hstuck eq_refl quiet_env)].
Defined.

(** X11. Loading with nothing usable in storage keeps the gallery: when the
    "fingerprintUsers" slot is absent or holds the empty text, the state is
    unchanged up to the status, which ends idle; when it holds a text that
    does not parse, the gallery is kept, the status is error and the message
    reports the failed load. *)
Theorem loadUsersFromStorage_nothing_usable (st : State) :
  (localStorage st !! "fingerprintUsers" = None
   \/ localStorage st !! "fingerprintUsers" = Some (Malformed "") ->
   loadUsersFromStorage st = Some (setStorageStatus idle st))
  /\ (forall raw,
        localStorage st !! "fingerprintUsers" = Some (Malformed raw) ->
        raw <> "" ->
        exists st',
          loadUsersFromStorage st = Some st'
          /\ users st' = users st /\ storageStatus st' = error
          /\ message st' = "Gagal memuat data dari penyimpanan lokal").
Proof.
  split.
  - intros [Hslot|Hslot]; unfold loadUsersFromStorage; rewrite Hslot;
      reflexivity.
  - intros raw Hslot Hraw. unfold loadUsersFromStorage. rewrite Hslot.
    destruct raw as [|c raw]; [congruence|]. simpl.
    eexists. split; [reflexivity|]. simpl. auto.
Qed.

Lemma loadUsersFromStorage_nothing_usable_witness :
  loadUsersFromStorage gallery3 = Some (setStorageStatus idle gallery3)
  /\ exists st',
       loadUsersFromStorage
         (setLocalStorage {["fingerprintUsers" := Malformed "[{"]} gallery3)
       = Some st'
       /\ users st' = [ani; budi; citra] /\ storageStatus st' = error
       /\ message st' = "Gagal memuat data dari penyimpanan lokal".
Proof.
  split.
  - exact (proj1 (loadUsersFromStorage_nothing_usable gallery3)
             (or_introl eq_refl)).
  - refine
      (proj2
         (loadUsersFromStorage_nothing_usable
            (setLocalStorage {["fingerprintUsers" := Malformed "[{"]}
               gallery3))
         "[{" _ _); [reflexivity|discriminate].
Defined.

(** ** deleteUser *)

Lemma deleteUser_users E id st :
  users (deleteUser E id st) = filter (fun u => user_id u <> id) (users st).
Proof.
  unfold deleteUser. cbn [localStorage setUsers].
  destruct (setItem E "fingerprintUsers" _ _); reflexivity.
Qed.

Lemma filter_all_kept (P : User -> Prop) `{!forall u, Decision (P u)}
    (l : list User) :
  (forall u, u ∈ l -> P u) -> filter P l = l.
Proof.
  induction l as [|u l IH]; intros Hall; [reflexivity|].
  rewrite filter_cons_True by (apply Hall; apply elem_of_cons; auto).
  rewrite IH; [reflexivity|].
  intros v Hv. apply Hall. apply elem_of_cons. auto.
Qed.

(** X12. Deleting by id, whether or not the storage write goes through,
    keeps exactly the records with another id, in their order, and removes
    every record carrying the id; an id that no record carries leaves the
    gallery as it is, and deleting the same id again changes nothing
    more. *)
Theorem deleteUser_gallery (E E' : Env) (id : Z) (st : State) :
  (forall u, u ∈ users (deleteUser E id st)
             <-> u ∈ users st /\ user_id u <> id)
  /\ users (deleteUser E id st) `sublist_of` users st
  /\ (id ∉ user_id <$> users st -> users (deleteUser E id st) = users st)
  /\ users (deleteUser E' id (deleteUser E id st))
     = users (deleteUser E id st).
Proof.
  rewrite !deleteUser_users. split; [|split; [|split]].
  - intros u. rewrite list_elem_of_filter. tauto.
  - apply sublist_filter.
  - intros Habsent. apply filter_all_kept. intros u Hu Hid.
    apply Habsent. apply list_elem_of_fmap. exists u. auto.
  - apply filter_all_kept. intros u Hu.
    apply list_elem_of_filter in Hu as [Hid _]. exact Hid.
Qed.

Lemma deleteUser_gallery_witness :
  users (deleteUser quiet_env 42 gallery3) = [ani; budi; citra].
Proof.
  refine
    (proj1 (proj2 (proj2
       (deleteUser_gallery quiet_env quiet_env 42 gallery3))) _).
  intros Hin. apply list_elem_of_fmap in Hin as (u & Hid & Hu).
  repeat (apply elem_of_cons in Hu as [->|Hu]; [discriminate Hid|]).
  inversion Hu.
Defined.

(** X13. Deleting the id of a record that was just enrolled removes that
    record together with every older record carrying the same id: the
    gallery is the old one without the records whose id is the clock
    reading of the enrollment, hence the old one itself when that reading
    was fresh. *)
Theorem enroll_then_delete (E E' : Env) (st st1 : State) (t : string) :
  truthy_string (trim (name st)) = true ->
  captureFingerprint E st = (st1, Some t) -> truthy_string t = true ->
  users (deleteUser E' (Date_now E) (enrollUser E st))
  = filter (fun u => user_id u <> Date_now E) (users st)
  /\ (Date_now E ∉ user_id <$> users st ->
      users (deleteUser E' (Date_now E) (enrollUser E st)) = users st).
Proof.
  intros Hname Hcap Ht.
  assert (Hus : users (enrollUser E st)
                = users st
                    ++ [{| user_id := Date_now E; user_name := trim (name st);
                           user_template := t;
                           user_enrollDate := Date_toLocaleString E |}]).
  { rewrite (enrollUser_success E st st1 t Hname Hcap Ht). simpl.
    destruct (setItem E "fingerprintUsers" _ _); reflexivity. }
  assert (Hdel : users (deleteUser E' (Date_now E) (enrollUser E st))
                 = filter (fun u => user_id u <> Date_now E) (users st)).
  { rewrite deleteUser_users, Hus, filter_app.
    rewrite (filter_cons_False _ _ []) by (simpl; auto).
    rewrite filter_nil. apply app_nil_r. }
  split; [exact Hdel|].
  intros Hfresh. rewrite Hdel. apply filter_all_kept. intros u Hu Hid.
  apply Hfresh. apply list_elem_of_fmap. exists u. auto.
Qed.

Lemma enroll_then_delete_witness :
  users (deleteUser quiet_env 1700000000000
           (enrollUser (env_of 1700000000000 [] false)
              (state_of [ani; budi] "Dewi")))
  = [budi].
Proof.
  exact
    (proj1
       (enroll_then_delete (env_of 1700000000000 [] false) quiet_env
          (state_of [ani; budi] "Dewi") _ "UFJPQkU=" eq_refl eq_refl eq_refl)).
Defined.

(** X14. When the storage write of a deletion goes through, the stored
    gallery is the gallery in memory, and loading from that storage yields
    it again. *)
Theorem deleteUser_persisted (E : Env) (id : Z) (st : State) :
  setItem_throws E (localStorage st) "fingerprintUsers"
    (Json (users_toJSON (filter (fun u => user_id u <> id) (users st))))
  = false ->
  localStorage (deleteUser E id st) !! "fingerprintUsers"
  = Some (Json (users_toJSON (users (deleteUser E id st))))
  /\ exists st',
       loadUsersFromStorage (deleteUser E id st) = Some st'
       /\ users st' = users (deleteUser E id st).
Proof.
  intros Hok.
  assert (Hslot : localStorage (deleteUser E id st) !! "fingerprintUsers"
                  = Some (Json (users_toJSON (users (deleteUser E id st))))).
  { unfold deleteUser, setItem, JSON_stringify. cbn [localStorage setUsers].
    rewrite Hok. simpl. apply lookup_insert_eq. }
  split; [exact Hslot|].
  destruct (loadUsersFromStorage_stored _ _ Hslot) as (st' & Hload & Hus & _).
  exists st'. auto.
Qed.

Lemma deleteUser_persisted_witness :
  exists st',
    loadUsersFromStorage (deleteUser quiet_env 1700000060000 gallery3)
    = Some st'
    /\ users st' = users (deleteUser quiet_env 1700000060000 gallery3).
Proof.
  exact
    (proj2 (deleteUser_persisted quiet_env 1700000060000 gallery3 eq_refl)).
Defined.

(** ** clearAllData *)

(** X15. A declined confirmation changes nothing.  A confirmed clear in
    which no removal throws empties the gallery and the last capture and
    removes exactly the three keys of the application, every other key
    keeping its value. *)
Theorem clearAllData_clears
    (throws : gmap string Text -> string -> bool) (st : State) :
  clearAllData false throws st = st
  /\ ((forall ls k, throws ls k = false) ->
      users (clearAllData true throws st) = []
      /\ lastCaptured (clearAllData true throws st) = None
      /\ localStorage (clearAllData true throws st) !! "fingerprintUsers"
         = None
      /\ localStorage (clearAllData true throws st) !! "lastCaptured" = None
      /\ localStorage (clearAllData true throws st) !! "verificationLogs"
         = None
      /\ forall k, k <> "fingerprintUsers" -> k <> "lastCaptured" ->
                   k <> "verificationLogs" ->
                   localStorage (clearAllData true throws st) !! k
                   = localStorage st !! k).
Proof.
  split; [reflexivity|]. intros Hnever.
  unfold clearAllData, removeItem. rewrite !Hnever. simpl.
  split; [reflexivity|]. split; [reflexivity|].
  split; [rewrite !lookup_delete_ne by discriminate; apply lookup_delete_eq|].
  split; [rewrite lookup_delete_ne by discriminate; apply lookup_delete_eq|].
  split; [apply lookup_delete_eq|].
  intros k H1 H2 H3. rewrite !lookup_delete_ne by congruence. reflexivity.
Qed.

Lemma clearAllData_clears_witness :
  users (clearAllData true (fun _ _ => false) gallery3) = []
  /\ localStorage (clearAllData true (fun _ _ => false)
                     (setLocalStorage {["theme" := Malformed "dark"]}
                        gallery3)) !! "theme"
     = Some (Malformed "dark").
Proof.
  split.
  - exact
      (proj1
         (proj2 (clearAllData_clears (fun _ _ => false) gallery3)
            (fun _ _ => eq_refl))).
  - refine
      (proj2 (proj2 (proj2 (proj2 (proj2
         (proj2
            (clearAllData_clears (fun _ _ => false)
               (setLocalStorage {["theme" := Malformed "dark"]} gallery3))
            (fun _ _ => eq_refl))))))
         "theme" _ _ _); discriminate.
Defined.

(** X16. Unlike enrollment and deletion, a clear whose storage removal
    throws does not take effect in memory: whichever of the three removals
    throws, gallery and last capture are kept.  The storage is then exactly
    the old one without the keys removed before the removal that threw:
    unchanged if the first throws, without "fingerprintUsers" if the second
    throws, without "fingerprintUsers" and "lastCaptured" if the third
    throws, "verificationLogs" being kept in all three cases. *)
Theorem clearAllData_failure_keeps_memory
    (throws : gmap string Text -> string -> bool) (st : State) :
  message (clearAllData true throws st)
  = "Gagal menghapus data dari penyimpanan lokal" ->
  users (clearAllData true throws st) = users st
  /\ lastCaptured (clearAllData true throws st) = lastCaptured st
  /\ localStorage (clearAllData true throws st) !! "verificationLogs"
     = localStorage st !! "verificationLogs"
  /\ localStorage (clearAllData true throws st)
     = if throws (localStorage st) "fingerprintUsers"
       then localStorage st
       else if throws (delete "fingerprintUsers" (localStorage st))
                 "lastCaptured"
            then delete "fingerprintUsers" (localStorage st)
            else delete "lastCaptured"
                   (delete "fingerprintUsers" (localStorage st)).
Proof.
  unfold clearAllData, removeItem.
  destruct (throws (localStorage st) "fingerprintUsers") eqn:H1; simpl.
  { intros _. repeat split; auto. }
  destruct (throws (delete "fingerprintUsers" (localStorage st)) "lastCaptured")
    eqn:H2; simpl.
  { intros _. repeat split; auto.
    rewrite lookup_delete_ne by discriminate. reflexivity. }
  destruct (throws _ "verificationLogs") eqn:H3; simpl.
  { intros _. repeat split; auto.
    rewrite !lookup_delete_ne by discriminate. reflexivity. }
  discriminate.
Qed.

Lemma clearAllData_failure_keeps_memory_witness :
  users (clearAllData true (fun _ k => String.eqb k "verificationLogs")
           (setLocalStorage stored3 gallery3))
  = [ani; budi; citra]
  /\ localStorage
       (clearAllData true (fun _ k => String.eqb k "verificationLogs")
          (setLocalStorage stored3 gallery3))
     = delete "lastCaptured" (delete "fingerprintUsers" stored3)
  /\ localStorage
       (clearAllData true (fun _ k => String.eqb k "verificationLogs")
          (setLocalStorage stored3 gallery3)) !! "lastCaptured" = None
  /\ localStorage
       (clearAllData true (fun _ k => String.eqb k "verificationLogs")
          (setLocalStorage stored3 gallery3)) !! "verificationLogs"
     = Some (Json (JArr [])).
Proof.
  destruct
    (clearAllData_failure_keeps_memory
       (fun _ k => String.eqb k "verificationLogs")
       (setLocalStorage stored3 gallery3) eq_refl)
    as (Hus & _ & Hlog & Hstore).
  split; [exact Hus|]. split; [exact Hstore|].
  split; [rewrite Hstore; apply lookup_delete_eq|].
  rewrite Hlog. reflexivity.
Defined.

(** X17. After a confirmed clear that succeeds in a state whose storage
    status is idle, the effect on [users] saves the now empty gallery: if
    its write goes through, the "fingerprintUsers" key that the clear had
    removed is back and holds the empty array. *)
Theorem clear_then_effect_recreates_slot
    (E : Env) (throws : gmap string Text -> string -> bool) (st : State) :
  (forall ls k, throws ls k = false) ->
  storageStatus st = idle ->
  setItem_throws E (localStorage (clearAllData true throws st))
    "fingerprintUsers" (Json (JArr [])) = false ->
  localStorage (usersEffect E (clearAllData true throws st))
    !! "fingerprintUsers" = Some (Json (JArr []))
  /\ users (usersEffect E (clearAllData true throws st)) = [].
Proof.
  intros Hnever Hidle Hok.
  unfold clearAllData, removeItem in *. rewrite !Hnever in *.
  unfold usersEffect, saveUsersToStorage, setItem, JSON_stringify, users_toJSON.
  simpl in *. rewrite Hidle. simpl. rewrite Hok. simpl.
  split; [apply lookup_insert_eq|reflexivity].
Qed.

Lemma clear_then_effect_recreates_slot_witness :
  localStorage
    (usersEffect quiet_env (clearAllData true (fun _ _ => false) gallery3))
    !! "fingerprintUsers" = Some (Json (JArr []))
  /\ users
       (usersEffect quiet_env (clearAllData true (fun _ _ => false) gallery3))
     = [].
Proof.
  exact
    (clear_then_effect_recreates_slot quiet_env (fun _ _ => false) gallery3
       (fun _ _ => eq_refl) eq_refl eq_refl).
Defined.

(** ** verifyFingerprint: what it leaves alone *)

Lemma saveVerificationLog_other_keys E entry ls k :
  k <> "verificationLogs" -> saveVerificationLog E entry ls !! k = ls !! k.
Proof.
  intros Hk. unfold saveVerificationLog.
  destruct (JSON_parse _) as [[]|]; try reflexivity.
  destruct (setItem E "verificationLogs" _ ls) as [ls'|] eqn:Hset;
    [|reflexivity].
  eapply setItem_other; [exact Hset|congruence].
Qed.

(** X18. A verification never changes the gallery, the name field or the
    storage status, and it writes to no storage key other than
    "lastCaptured" and "verificationLogs"; in particular the stored gallery
    is never touched by it. *)
Theorem verifyFingerprint_frame (E : Env) (st : State) :
  users (verifyFingerprint E st) = users st
  /\ name (verifyFingerprint E st) = name st
  /\ (forall k, k <> "lastCaptured" -> k <> "verificationLogs" ->
                localStorage (verifyFingerprint E st) !! k
                = localStorage st !! k).
Proof.
  unfold verifyFingerprint.
  destruct (length (users st) =? 0); [simpl; auto|].
  destruct (captureFingerprint E st) as [st1 template] eqn:Hcap.
  destruct (captureFingerprint_frame E st st1 _ Hcap) as (Hus & Hname & _).
  assert (Hkeys : forall k, k <> "lastCaptured" ->
                            localStorage st1 !! k = localStorage st !! k).
  { intros k Hk. pose proof (captureFingerprint_other_keys E st k Hk) as H.
    rewrite Hcap in H. exact H. }
  destruct template as [t|]; [|auto].
  destruct (negb (truthy_string t)); [auto|].
  unfold after_scan.
  destruct (scan E t 0 (users st) None 0) as [err|bm bs]; [simpl; auto|].
  destruct (verdict bm bs); simpl; repeat split; auto;
    intros k Hk1 Hk2; rewrite saveVerificationLog_other_keys by exact Hk2;
    auto.
Qed.

Lemma verifyFingerprint_frame_witness :
  localStorage
    (verifyFingerprint
       (env_of 1700040000000 [score 40; score 150; score 90] false)
       (setLocalStorage
          {["fingerprintUsers" := Json (users_toJSON [ani; budi; citra])]}
          gallery3)) !! "fingerprintUsers"
  = Some (Json (users_toJSON [ani; budi; citra])).
Proof.
  refine
    (proj2 (proj2
       (verifyFingerprint_frame
          (env_of 1700040000000 [score 40; score 150; score 90] false)
          (setLocalStorage
             {["fingerprintUsers" := Json (users_toJSON [ani; budi; citra])]}
             gallery3)))
       "fingerprintUsers" _ _); discriminate.
Defined.

(** X19. With an empty gallery a verification only sets the message "Belum
    ada user terdaftar!" and attempts no capture; with a non-empty gallery
    and a capture that returns no template or an empty one, it ends in the
    state the capture left: no comparison is requested and the stored audit
    log is as before. *)
Theorem verifyFingerprint_without_scan (E : Env) (st : State) :
  (users st = [] ->
   verifyFingerprint E st = setMessage "Belum ada user terdaftar!" st)
  /\ (users st <> [] ->
      (captureFingerprint E st).2 = None
      \/ (captureFingerprint E st).2 = Some "" ->
      verifyFingerprint E st = (captureFingerprint E st).1
      /\ audit_log (localStorage (verifyFingerprint E st))
         = audit_log (localStorage st)).
Proof.
  split.
  - intros Hempty. unfold verifyFingerprint. rewrite Hempty. reflexivity.
  - intros Hne Hnone.
    assert (Heq : verifyFingerprint E st = (captureFingerprint E st).1).
    { unfold verifyFingerprint.
      destruct (users st) as [|u us]; [congruence|]. simpl.
      destruct (captureFingerprint E st) as [st1 template]. simpl in *.
      destruct Hnone as [->| ->]; reflexivity. }
    split; [exact Heq|]. rewrite Heq. apply audit_log_ext.
    apply captureFingerprint_other_keys. discriminate.
Qed.

Lemma verifyFingerprint_without_scan_witness :
  verifyFingerprint quiet_env (state_of [] "")
  = setMessage "Belum ada user terdaftar!" (state_of [] "")
  /\ verifyFingerprint (env_capturing (NetworkError "Failed to fetch") false)
       gallery3
     = (captureFingerprint
          (env_capturing (NetworkError "Failed to fetch") false) gallery3).1.
Proof.
  split.
  - exact (proj1 (verifyFingerprint_without_scan quiet_env (state_of [] ""))
             eq_refl).
  - refine
      (proj1
         (proj2
            (verifyFingerprint_without_scan
               (env_capturing (NetworkError "Failed to fetch") false) gallery3)
            _ (or_introl eq_refl))).
    discriminate.
Defined.

(** ** The scan over a growing gallery *)

Lemma scan_app E t us1 :
  forall us2 i bm bs,
    scan E t i (us1 ++ us2) bm bs
    = match scan E t i us1 bm bs with
      | Aborted err => Aborted err
      | Completed bm' bs' => scan E t (i + length us1) us2 bm' bs'
      end.
Proof.
  induction us1 as [|u us1 IH]; intros us2 i bm bs.
  - simpl. rewrite Nat.add_0_r. reflexivity.
  - cbn [app scan length].
    destruct (match_request E i t (user_template u)) as [err|r];
      [reflexivity|].
    rewrite Nat.add_succ_r, <- Nat.add_succ_l.
    destruct (_ && _)%bool; apply IH.
Qed.

(** X20. The scan of a gallery extended at the end is the scan of the old
    gallery continued over the added records: a failure among the old
    records aborts as before, and otherwise the loop goes on from the old
    result with the request numbering continued. *)
Theorem scan_extended_gallery
    (E : Env) (t : string) (us more : list User) :
  scan E t 0 (us ++ more) None 0
  = match scan E t 0 us None 0 with
    | Aborted err => Aborted err
    | Completed bm bs => scan E t (length us) more bm bs
    end.
Proof. apply (scan_app E t us more 0 None 0%Z). Qed.

(** X21. Records appended to the gallery can only raise the result of a
    scan: if the scans of the old and of the extended gallery both run
    through, the new best score is at least the old one, the best match is
    the old one unless the score went strictly up, and a verdict that was
    accepted stays accepted. *)
Theorem scan_monotone_in_gallery
    (E : Env) (t : string) (us more : list User)
    (bm bm' : option User) (bs bs' : Z) :
  scan E t 0 us None 0 = Completed bm bs ->
  scan E t 0 (us ++ more) None 0 = Completed bm' bs' ->
  (bs <= bs')%Z
  /\ (bs' = bs -> bm' = bm)
  /\ ((exists u, verdict bm bs = Accepted u bs) ->
      exists u', verdict bm' bs' = Accepted u' bs').
Proof.
  intros Hold Hnew.
  rewrite (scan_app E t us more 0 None 0%Z), Hold in Hnew. simpl in Hnew.
  assert (Hpos : (0 <= bs)%Z).
  { destruct (scan_completed_replies E t us 0 None 0%Z bm bs Hold) as [rs Hrs].
    destruct (scan_reduction E t us rs 0 None 0%Z Hrs ltac:(lia))
      as (? & ? & Hs & Hm & _).
    rewrite Hold in Hs. injection Hs as <- <-. exact Hm. }
  destruct (scan_completed_replies E t more _ bm bs bm' bs' Hnew) as [rs Hrs].
  destruct (scan_reduction E t more rs _ bm bs Hrs Hpos)
    as (bm2 & bs2 & Hs & Hmono & _ & Hwho).
  rewrite Hnew in Hs. injection Hs as <- <-.
  split; [exact Hmono|]. split.
  - intros Heq. destruct Hwho as [[-> _]|(k & u & r & _ & _ & _ & _ & _ & Hlt & _)];
      [reflexivity|lia].
  - intros [u Hacc]. unfold verdict in *.
    destruct (100 <? bs)%Z eqn:Hbig; [|discriminate].
    apply Z.ltb_lt in Hbig.
    rewrite (proj2 (Z.ltb_lt 100 bs') ltac:(lia)).
    destruct Hwho as [[-> ->]|(k & u' & r & _ & _ & -> & _)]; eauto.
Qed.

Lemma scan_monotone_in_gallery_witness :
  (150 <= 150)%Z
  /\ (150%Z = 150%Z -> Some budi = Some budi)
  /\ ((exists u, verdict (Some budi) 150 = Accepted u 150) ->
      exists u', verdict (Some budi) 150 = Accepted u' 150).
Proof.
  exact
    (scan_monotone_in_gallery
       (env_of 1700040000000 [score 40; score 150; score 90] false)
       "UFJPQkU=" [ani; budi] [citra] (Some budi) (Some budi) 150 150
       eq_refl eq_refl).
Defined.

(** X22. The best score of a scan that ran through is 0 or the
    MatchingScore of one of the valid replies; so it lies between 0 and any
    bound that the scores of the valid replies respect, between 0 and 199
    on the scale of the device. *)
Theorem scan_score_range
    (E : Env) (t : string) (us : list User) (bm : option User) (bs : Z) :
  scan E t 0 us None 0 = Completed bm bs ->
  exists rs,
    requests E t 0 us = map inr rs
    /\ (bs = 0%Z
        \/ exists r, r ∈ rs /\ ErrorCode r = 0%Z /\ MatchingScore r = bs)
    /\ forall top,
         (0 <= top)%Z ->
         (forall r, r ∈ rs -> ErrorCode r = 0%Z -> (MatchingScore r <= top)%Z) ->
         (0 <= bs <= top)%Z.
Proof.
  intros Hscan.
  destruct (scan_completed_replies E t us 0 None 0%Z bm bs Hscan) as [rs Hrs].
  destruct (scan_reduction E t us rs 0 None 0%Z Hrs ltac:(lia))
    as (bm' & bs' & Hs & Hmono & _ & Hwho).
  rewrite Hscan in Hs. injection Hs as <- <-.
  exists rs. split; [exact Hrs|].
  assert (Hval : bs = 0%Z
                 \/ exists r, r ∈ rs /\ ErrorCode r = 0%Z
                              /\ MatchingScore r = bs).
  { destruct Hwho as [[_ ->]|(k & u & r & _ & Hk & _ & Hc & Hs & _)];
      [left; reflexivity|right].
    exists r. split; [eapply list_elem_of_lookup_2; exact Hk|auto]. }
  split; [exact Hval|].
  intros top Htop Hbound. split; [exact Hmono|].
  destruct Hval as [->|(r & Hin & Hc & <-)]; [exact Htop|auto].
Qed.

Lemma scan_score_range_witness :
  exists rs,
    requests (env_of 1700040000000 [score 40; score 150; score 90] false)
      "UFJPQkU=" 0 [ani; budi; citra] = map inr rs
    /\ (150%Z = 0%Z
        \/ exists r, r ∈ rs /\ ErrorCode r = 0%Z /\ MatchingScore r = 150%Z)
    /\ forall top,
         (0 <= top)%Z ->
         (forall r, r ∈ rs -> ErrorCode r = 0%Z -> (MatchingScore r <= top)%Z) ->
         (0 <= 150 <= top)%Z.
Proof.
  exact
    (scan_score_range
       (env_of 1700040000000 [score 40; score 150; score 90] false)
       "UFJPQkU=" [ani; budi; citra] (Some budi) 150 eq_refl).
Defined.

(** ** The audit log beyond the bound *)

(** X23. A stored log that cannot be used is never repaired: when the
    "verificationLogs" slot holds a non-empty text that does not parse, or
    a JSON value that is no array, recording changes nothing in storage and
    the entry is lost.  Recording never writes to another key. *)
Theorem saveVerificationLog_unusable_log
    (E : Env) (entry : JSON) (ls : gmap string Text) :
  (audit_log ls = None -> saveVerificationLog E entry ls = ls)
  /\ (forall k, k <> "verificationLogs" ->
                saveVerificationLog E entry ls !! k = ls !! k).
Proof.
  split.
  - apply saveVerificationLog_no_array.
  - intros k. apply saveVerificationLog_other_keys.
Qed.

Lemma saveVerificationLog_unusable_log_witness :
  saveVerificationLog quiet_env (failureLog quiet_env 77)
    {["verificationLogs" := Json (JObj [("entries", JArr [])])]}
  = {["verificationLogs" := Json (JObj [("entries", JArr [])])]}
  /\ saveVerificationLog quiet_env (failureLog quiet_env 77)
       {["theme" := Malformed "dark"]} !! "theme"
     = Some (Malformed "dark").
Proof.
  split.
  - exact
      (proj1
         (saveVerificationLog_unusable_log quiet_env (failureLog quiet_env 77)
            {["verificationLogs" := Json (JObj [("entries", JArr [])])]})
         eq_refl).
  - refine
      (proj2
         (saveVerificationLog_unusable_log quiet_env (failureLog quiet_env 77)
            {["theme" := Malformed "dark"]})
         "theme" _).
    discriminate.
Defined.

Lemma last_kept (entries : list JSON) (entry : JSON) :
  last (drop (length (entries ++ [entry]) - 50) (entries ++ [entry]))
  = Some entry.
Proof.
  rewrite length_app. cbn [length].
  rewrite drop_app_le by lia. apply last_snoc.
Qed.

Lemma length_kept (entries : list JSON) (entry : JSON) :
  length (drop (length (entries ++ [entry]) - 50) (entries ++ [entry]))
  = Nat.min 50 (S (length entries)).
Proof. rewrite length_drop, length_app. cbn [length]. lia. Qed.

(** X24. When the stored log is usable and the write goes through, the
    entry just recorded is the last element of the log read afterwards,
    whatever was evicted, and the log then has min(50, n + 1) entries for a
    log of n entries before; a log that did not exist yet (key absent or
    empty text) becomes the one-entry log. *)
Theorem saveVerificationLog_newest_last
    (E : Env) (entry : JSON) (ls : gmap string Text) (entries : list JSON) :
  audit_log ls = Some entries ->
  (forall v, setItem_throws E ls "verificationLogs" v = false) ->
  exists kept,
    audit_log (saveVerificationLog E entry ls) = Some kept
    /\ last kept = Some entry
    /\ length kept = Nat.min 50 (S (length entries))
    /\ (ls !! "verificationLogs" = None
        \/ ls !! "verificationLogs" = Some (Malformed "") ->
        kept = [entry]).
Proof.
  intros Hlog Hok.
  rewrite (saveVerificationLog_array E entry ls entries Hlog).
  unfold setItem. rewrite Hok.
  eexists. split; [apply audit_log_written|].
  split; [apply last_kept|]. split; [apply length_kept|].
  intros Hfresh.
  assert (entries = []) as ->.
  { unfold audit_log in Hlog.
    destruct Hfresh as [Hslot|Hslot]; rewrite Hslot in Hlog;
      simpl in Hlog; congruence. }
  reflexivity.
Qed.

Lemma saveVerificationLog_newest_last_witness :
  exists kept,
    audit_log (saveVerificationLog quiet_env (failureLog quiet_env 77) ∅)
    = Some kept
    /\ last kept = Some (failureLog quiet_env 77)
    /\ length kept = Nat.min 50 1
    /\ ((∅ : gmap string Text) !! "verificationLogs" = None
        \/ (∅ : gmap string Text) !! "verificationLogs" = Some (Malformed "") ->
        kept = [failureLog quiet_env 77]).
Proof.
  exact
    (saveVerificationLog_newest_last quiet_env (failureLog quiet_env 77) ∅ []
       eq_refl (fun _ => eq_refl)).
Defined.

(** X25. A verification whose scan ran through records its own outcome:
    with a usable stored log and storage writes that go through, the log
    read afterwards ends with the entry of this attempt, which carries the
    best score and, exactly when the attempt was accepted, the success flag
    and the name of the matched user. *)
Theorem verifyFingerprint_records_outcome
    (E : Env) (st st1 : State) (t : string) (bm : option User) (bs : Z)
    (entries : list JSON) :
  users st <> [] ->
  captureFingerprint E st = (st1, Some t) -> truthy_string t = true ->
  scan E t 0 (users st) None 0 = Completed bm bs ->
  audit_log (localStorage st) = Some entries ->
  (forall ls k v, setItem_throws E ls k v = false) ->
  exists kept,
    audit_log (localStorage (verifyFingerprint E st)) = Some kept
    /\ length kept = Nat.min 50 (S (length entries))
    /\ last kept
       = Some match verdict bm bs with
              | Accepted u s =>
                  JObj [("timestamp", JStr (Date_toISOString E));
                        ("userName", JStr (user_name u));
                        ("score", JNum s); ("success", JBool true)]
              | Rejected s =>
                  JObj [("timestamp", JStr (Date_toISOString E));
                        ("score", JNum s); ("success", JBool false)]
              end.
Proof.
  intros Hne Hcap Ht Hscan Hlog Hok.
  destruct (captureFingerprint_frame E st st1 _ Hcap) as (_ & _ & Hkey).
  assert (Hlog1 : audit_log (localStorage st1) = Some entries).
  { rewrite <- Hlog. apply audit_log_ext. exact Hkey. }
  rewrite (verifyFingerprint_scan E st st1 t Hne Hcap Ht), Hscan.
  unfold after_scan.
  destruct (verdict bm bs) as [u s|s]; cbn [localStorage setMessage setLocalStorage];
    rewrite (saveVerificationLog_array E _ _ entries Hlog1);
    unfold setItem; rewrite Hok;
    (eexists; split; [apply audit_log_written|];
     split; [apply length_kept|apply last_kept]).
Qed.

Lemma verifyFingerprint_records_outcome_witness :
  exists kept,
    audit_log
      (localStorage
         (verifyFingerprint
            (env_of 1700040000000 [score 40; score 150; score 90] false)
            gallery3)) = Some kept
    /\ length kept = Nat.min 50 1
    /\ last kept
       = Some (JObj [("timestamp", JStr "2023-11-15T02:00:00.000Z");
                     ("userName", JStr "Budi");
                     ("score", JNum 150); ("success", JBool true)]).
Proof.
  exact
    (verifyFingerprint_records_outcome
       (env_of 1700040000000 [score 40; score 150; score 90] false)
       gallery3 _ "UFJPQkU=" (Some budi) 150 [] ltac:(discriminate)
       eq_refl eq_refl eq_refl eq_refl (fun _ _ _ => eq_refl)).
Defined.

(** ** importData beyond rejection *)

(** X26. An accepted import replaces the gallery, it does not merge.
    With a "users" array of User records, whatever the "lastCaptured" field
    and whatever the outcome of the storage writes, every state the import
    ends in has exactly the imported records as its gallery.  When the
    writes go through and the "lastCaptured" field is absent, falsy or a
    capture record, the import is accepted: the stored gallery is the
    imported array, and the last capture is replaced, in memory and in
    storage, by a truthy "lastCaptured" field and by nothing else: with the
    field absent, null or otherwise falsy the last capture of before is
    kept, not cleared. *)
Theorem importData_replaces_gallery
    (E : Env) (st : State) (props : list (string * JSON))
    (items : list JSON) (us : list User) :
  assoc "users" props = Some (JArr items) ->
  users_ofJSON items = Some us ->
  (forall st', importData E (Some (Json (JObj props))) st = Some st' ->
               users st' = us)
  /\ ((forall ls k v, setItem_throws E ls k v = false) ->
      (forall lc, assoc "lastCaptured" props = Some lc -> truthy lc = true ->
                  is_Some (CapturedData_ofJSON lc)) ->
      exists st',
        importData E (Some (Json (JObj props))) st = Some st'
        /\ users st' = us
        /\ localStorage st' !! "fingerprintUsers" = Some (Json (JArr items))
        /\ message st'
           = "Berhasil mengimpor " +:+ pretty (length items) +:+ " user"
        /\ match assoc "lastCaptured" props with
           | Some lc =>
               if truthy lc then
                 lastCaptured st' = CapturedData_ofJSON lc
                 /\ localStorage st' !! "lastCaptured" = Some (Json lc)
               else
                 lastCaptured st' = lastCaptured st
                 /\ localStorage st' !! "lastCaptured"
                    = localStorage st !! "lastCaptured"
           | None =>
               lastCaptured st' = lastCaptured st
               /\ localStorage st' !! "lastCaptured"
                  = localStorage st !! "lastCaptured"
           end).
Proof.
  intros Husers Hdec. split.
  - intros st'. unfold importData, setItem. simpl.
    rewrite Husers, Hdec. simpl.
    destruct (setItem_throws E _ "fingerprintUsers" _);
      [intros [= <-]; reflexivity|].
    destruct (assoc "lastCaptured" props) as [lc|];
      [|intros [= <-]; reflexivity].
    destruct (truthy lc); [|intros [= <-]; reflexivity].
    destruct (CapturedData_ofJSON lc) as [c|]; simpl; [|discriminate].
    destruct (setItem_throws E _ "lastCaptured" _); intros [= <-]; reflexivity.
  - intros Hok Hlc. unfold importData, setItem. simpl.
    rewrite Husers, Hdec. simpl. rewrite Hok.
    destruct (assoc "lastCaptured" props) as [lc|] eqn:Hfield.
    + destruct (truthy lc) eqn:Htruthy.
      * destruct (Hlc lc eq_refl Htruthy) as [c Hc]. rewrite Hc. simpl.
        rewrite Hok. eexists. split; [reflexivity|]. simpl.
        rewrite lookup_insert_eq.
        rewrite lookup_insert_ne by discriminate.
        rewrite lookup_insert_eq. auto.
      * eexists. split; [reflexivity|]. simpl.
        rewrite lookup_insert_eq.
        rewrite lookup_insert_ne by discriminate. auto.
    + eexists. split; [reflexivity|]. simpl.
      rewrite lookup_insert_eq.
      rewrite lookup_insert_ne by discriminate. auto.
Qed.

Lemma importData_replaces_gallery_witness :
  (exists st',
     importData quiet_env
       (Some (Json (JObj [("users", JArr [User_toJSON citra]);
                          ("lastCaptured", CapturedData_toJSON capture2)])))
       (setLastCaptured (Some capture1) (state_of [ani; budi] ""))
     = Some st'
     /\ users st' = [citra]
     /\ lastCaptured st' = Some capture2)
  /\ (exists st',
        importData quiet_env
          (Some (Json (JObj [("users", JArr [User_toJSON citra]);
                             ("lastCaptured", JNull)])))
          (setLastCaptured (Some capture1) (state_of [ani; budi] ""))
        = Some st'
        /\ users st' = [citra]
        /\ lastCaptured st' = Some capture1).
Proof.
  split.
  - destruct
      (proj2
         (importData_replaces_gallery quiet_env
            (setLastCaptured (Some capture1) (state_of [ani; budi] ""))
            [("users", JArr [User_toJSON citra]);
             ("lastCaptured", CapturedData_toJSON capture2)]
            [User_toJSON citra] [citra] eq_refl eq_refl)
         (fun _ _ _ => eq_refl)
         (fun lc Hlc _ =>
            match Hlc in _ = o
                  return match o with
                         | Some v => is_Some (CapturedData_ofJSON v)
                         | None => True
                         end
            with eq_refl => ex_intro _ capture2 eq_refl end))
      as (st' & Himp & Hus & _ & _ & Hlast & _).
    exists st'. split; [exact Himp|]. split; [exact Hus|exact Hlast].
  - destruct
      (proj2
         (importData_replaces_gallery quiet_env
            (setLastCaptured (Some capture1) (state_of [ani; budi] ""))
            [("users", JArr [User_toJSON citra]); ("lastCaptured", JNull)]
            [User_toJSON citra] [citra] eq_refl eq_refl)
         (fun _ _ _ => eq_refl)
         (fun lc Hlc Htruthy =>
            match Hlc in _ = o
                  return match o with
                         | Some v => truthy v = true ->
                                     is_Some (CapturedData_ofJSON v)
                         | None => True
                         end
            with eq_refl => fun H => False_ind _ (Bool.diff_false_true H)
            end Htruthy))
      as (st' & Himp & Hus & _ & _ & Hlast & _).
    exists st'. split; [exact Himp|]. split; [exact Hus|exact Hlast].
Defined.

(** X27. When the storage write of an import's gallery throws, the handler
    reports "Gagal mengimpor data. Format file tidak valid." although the
    gallery in memory has already been replaced by the imported records;
    storage and last capture are as before, the "lastCaptured" field of the
    document being ignored. *)
Theorem importData_write_failure
    (E : Env) (st : State) (props : list (string * JSON))
    (items : list JSON) (us : list User) :
  assoc "users" props = Some (JArr items) ->
  users_ofJSON items = Some us ->
  setItem_throws E (localStorage st) "fingerprintUsers" (Json (JArr items))
  = true ->
  exists st',
    importData E (Some (Json (JObj props))) st = Some st'
    /\ users st' = us
    /\ localStorage st' = localStorage st
    /\ lastCaptured st' = lastCaptured st
    /\ message st' = "Gagal mengimpor data. Format file tidak valid.".
Proof.
  intros Husers Hdec Hfail. unfold importData, setItem, JSON_stringify.
  simpl. rewrite Husers, Hdec. simpl. rewrite Hfail.
  eexists. split; [reflexivity|]. simpl. auto.
Qed.

Lemma importData_write_failure_witness :
  exists st',
    importData (env_of 1700040000000 [] true)
      (Some (Json (JObj [("users", JArr [User_toJSON citra])])))
      (state_of [ani; budi] "")
    = Some st'
    /\ users st' = [citra]
    /\ localStorage st' = ∅
    /\ lastCaptured st' = None
    /\ message st' = "Gagal mengimpor data. Format file tidak valid.".
Proof.
  exact
    (importData_write_failure (env_of 1700040000000 [] true)
       (state_of [ani; budi] "") [("users", JArr [User_toJSON citra])]
       [User_toJSON citra] [citra] eq_refl eq_refl eq_refl).
Defined.

(** X28. Export, import elsewhere, reload: when the storage writes of the
    import go through, the imported state holds the exported gallery both
    in memory and in storage, so that a later load from that storage yields
    it again; the last capture of the exporter is taken over when there is
    one, and otherwise the importer keeps its own. *)
Theorem export_import_reload (E E' : Env) (st st' : State) :
  (forall ls k v, setItem_throws E' ls k v = false) ->
  exists st'',
    importData E' (Some (exportData E st).2) st' = Some st''
    /\ users st'' = users st
    /\ lastCaptured st''
       = match lastCaptured st with
         | Some c => Some c
         | None => lastCaptured st'
         end
    /\ exists st3,
         loadUsersFromStorage st'' = Some st3 /\ users st3 = users st.
Proof.
  intros Hok.
  assert (Hslot : forall s : State,
            localStorage s !! "fingerprintUsers"
            = Some (Json (users_toJSON (users st))) ->
            exists st3, loadUsersFromStorage s = Some st3
                        /\ users st3 = users st).
  { intros s Hs.
    destruct (loadUsersFromStorage_stored s _ Hs) as (st3 & Hl & Hu & _).
    eauto. }
  unfold exportData, importData, setItem, users_toJSON in *. simpl.
  rewrite users_ofJSON_toJSON. simpl. rewrite Hok.
  destruct (lastCaptured st) as [[tpl img q n]|] eqn:Hlc; simpl.
  - rewrite Hok. eexists. split; [reflexivity|]. simpl.
    split; [reflexivity|]. split; [reflexivity|].
    apply Hslot. simpl.
    rewrite lookup_insert_ne by discriminate. apply lookup_insert_eq.
  - eexists. split; [reflexivity|]. simpl.
    split; [reflexivity|]. split; [reflexivity|].
    apply Hslot. simpl. apply lookup_insert_eq.
Qed.

Lemma export_import_reload_witness :
  exists st'',
    importData quiet_env (Some (exportData quiet_env gallery3).2)
      (state_of [] "") = Some st''
    /\ users st'' = [ani; budi; citra]
    /\ lastCaptured st'' = None
    /\ exists st3,
         loadUsersFromStorage st'' = Some st3
         /\ users st3 = [ani; budi; citra].
Proof.
  exact
    (export_import_reload quiet_env quiet_env gallery3 (state_of [] "")
       (fun _ _ _ => eq_refl)).
Defined.
